(** * PDF summarizer back end: the job pipeline of [main.py]

    A shallow embedding of [main.py] (FastAPI application): the
    submission handler [summarize_pdf], the background job runner
    [process_pdf_thread] with its two port adapters
    [extract_text_from_pdf] and [summarize_text], and the status handler
    [get_summary_status].

    Conventions of the embedding.
    - A Python [str] is a [string]; one [ascii] stands for one character
      (code points 0..255), so [String.length] is Python's [len].
    - A Python [dict] with string keys is a [gmap string _]; the job table
      [tasks_storage] maps a job id to the job's record, itself a dict.
    - The outside world of the runner (temporary files, pdfplumber, the
      Ollama server) is an explicit oracle, the record [World]; the value
      of [uuid.uuid4()] is an argument of [summarize_pdf].
    - Code that can raise runs in the monad [M]: machine state, an outcome
      that is a value or a raised exception, and the events emitted. *)

From Stdlib Require Import ZArith Ascii String List.
From Stdlib Require Import Strings.Byte.
From stdpp Require Import gmap strings list fin_maps sorting.

Local Open Scope string_scope.
Local Open Scope Z_scope.

(** ** Python strings *)

Module PyStr.

(** [len(s)] *)
Definition len (s : string) : Z := Z.of_nat (String.length s).

Definition code (c : ascii) : Z := Z.of_N (N_of_ascii c).

(** [str.lower] on one character of the range 0..255: the ASCII capitals
    and the Latin-1 capitals (U+00C0..U+00DE without the multiplication
    sign U+00D7) move up by 32, every other character is kept. *)
Definition lower_char (c : ascii) : ascii :=
  let n := code c in
  if ((65 <=? n) && (n <=? 90)) || ((192 <=? n) && (n <=? 222) && negb (n =? 215))
  then ascii_of_N (Z.to_N (n + 32))
  else c.

Fixpoint lower (s : string) : string :=
  match s with
  | EmptyString => EmptyString
  | String c s' => String (lower_char c) (lower s')
  end.

(** [str.isspace] on one character of the range 0..255. *)
Definition is_space (c : ascii) : bool :=
  let n := code c in
  ((9 <=? n) && (n <=? 13)) || ((28 <=? n) && (n <=? 32))
  || (n =? 133) || (n =? 160).

Fixpoint lstrip (s : string) : string :=
  match s with
  | EmptyString => EmptyString
  | String c s' => if is_space c then lstrip s' else s
  end.

Fixpoint rstrip (s : string) : string :=
  match s with
  | EmptyString => EmptyString
  | String c s' =>
      match rstrip s' with
      | EmptyString => if is_space c then EmptyString else String c EmptyString
      | r => String c r
      end
  end.

(** [s.strip()] *)
Definition strip (s : string) : string := rstrip (lstrip s).

(** [s[:n]] for [n >= 0] *)
Fixpoint slice_to (n : nat) (s : string) : string :=
  match n, s with
  | O, _ => EmptyString
  | _, EmptyString => EmptyString
  | S n', String c s' => String c (slice_to n' s')
  end.

(** [s[n:]] for [n >= 0] *)
Fixpoint slice_from (n : nat) (s : string) : string :=
  match n, s with
  | O, _ => s
  | _, EmptyString => EmptyString
  | S n', String _ s' => slice_from n' s'
  end.

(** [s.rfind(c)] for a one-character needle: the highest index holding
    [c], or [-1]. [i] is the index of the head of [s], [last] the best
    index seen so far. *)
Fixpoint rfind_from (c : ascii) (s : string) (i last : Z) : Z :=
  match s with
  | EmptyString => last
  | String a s' => rfind_from c s' (i + 1) (if Ascii.eqb a c then i else last)
  end.

Definition rfind (c : ascii) (s : string) : Z := rfind_from c s 0 (-1).

(** [s[i:i+1]] for [i >= 0] *)
Definition char_at (s : string) (i : Z) : string :=
  slice_to 1 (slice_from (Z.to_nat i) s).

(** truth value of an [Optional[str]]: [None] and [""] are false *)
Definition truthy (o : option string) : bool :=
  match o with
  | Some (String _ _) => true
  | _ => false
  end.

End PyStr.

(** ** [os.path.splitext] (posixpath) *)

Module OsPath.
Import PyStr.

Definition sep : ascii := "/"%char.
Definition extsep : ascii := "."%char.

(** The [while filenameIndex < dotIndex] loop of [genericpath._splitext]:
    [true] when a character other than the dot stands in
    [p[filenameIndex:dotIndex]], i.e. when the loop returns from inside.
    [fuel] is [dotIndex - filenameIndex], the number of iterations left. *)
Fixpoint has_stem (p : string) (fuel : nat) (filenameIndex : Z) : bool :=
  match fuel with
  | O => false
  | S fuel' =>
      if negb (String.eqb (char_at p filenameIndex) (String extsep EmptyString))
      then true
      else has_stem p fuel' (filenameIndex + 1)
  end.

Definition splitext (p : string) : string * string :=
  let sepIndex := rfind sep p in
  let dotIndex := rfind extsep p in
  if (sepIndex <? dotIndex)
     && has_stem p (Z.to_nat (dotIndex - (sepIndex + 1))) (sepIndex + 1)
  then (slice_to (Z.to_nat dotIndex) p, slice_from (Z.to_nat dotIndex) p)
  else (p, EmptyString).

End OsPath.

(** ** Data model: values, job records, the job table *)

(** A value stored in a job record: a Python [str] or [int]. *)
Inductive pyval : Type :=
  | VStr (s : string)
  | VInt (n : Z).

#[global] Instance pyval_eq_dec : EqDecision pyval.
Proof. solve_decision. Defined.

(** Exceptions that reach the runner: the [KeyError] of a dict subscript,
    and any other [Exception] with the text [str(e)] gives for it. *)
Inductive pyexn : Type :=
  | KeyError (key : string)
  | OtherError (msg : string).

(** [str(e)]. [str] of a [KeyError] is the [repr] of the missing key:
    the key between single quotes, for keys without quotes, backslashes
    and control characters (job ids are uuid4 strings). *)
Definition str_exn (e : pyexn) : string :=
  match e with
  | KeyError k => "'" +:+ k +:+ "'"
  | OtherError msg => msg
  end.

(** Configuration (lines 24-26). *)
Definition MAX_FILE_SIZE : Z := 10 * 1024 * 1024.
Definition ALLOWED_EXTENSIONS : gset string := {[ ".pdf" ]}.
Definition OLLAMA_MODEL : string := "mistral".

(** ** The outside world *)

(** What one page of the opened PDF does on [page.extract_text()]. *)
Inductive page_outcome : Type :=
  | PageText (t : option string)
  | PageFault.

(** What [ollama.chat(...)] followed by [response['message']['content']]
    does: raise (server unreachable, malformed response) or give the
    content. *)
Inductive chat_outcome : Type :=
  | ChatFault
  | ChatContent (c : string).

(** What the [with tempfile.NamedTemporaryFile(delete=False, ...)] block
    does: fail before a file exists, fail in [write]/[flush] with the file
    left on disk, or succeed with the file's name. *)
Inductive tempfile_outcome : Type :=
  | TempCreateFault (e : pyexn)
  | TempWriteFault (path : string) (e : pyexn)
  | TempOk (path : string).

Record World : Type := {
  named_temporary_file : tempfile_outcome;
  (** [pdfplumber.open] on a file of these bytes: [None] when it raises,
      else the pages *)
  pdfplumber_open : list byte -> option (list page_outcome);
  (** [ollama.chat] by model and prompt *)
  ollama_chat : string -> string -> chat_outcome;
  (** whether [os.unlink] succeeds *)
  unlink_succeeds : bool;
}.

(** ** Machine state, events, and the monad of the runner *)

Record Machine : Type := {
  tasks_storage : gmap string (gmap string pyval);
  (** the files in the temporary directory *)
  files : gmap string (list byte);
  (** the local variable [temp_file_path] of [process_pdf_thread] *)
  temp_file_path : option string;
}.

Definition set_storage (st : gmap string (gmap string pyval)) (m : Machine) : Machine :=
  {| tasks_storage := st; files := files m; temp_file_path := temp_file_path m |}.

Definition set_files (fs : gmap string (list byte)) (m : Machine) : Machine :=
  {| tasks_storage := tasks_storage m; files := fs; temp_file_path := temp_file_path m |}.

Definition set_temp_file_path (p : option string) (m : Machine) : Machine :=
  {| tasks_storage := tasks_storage m; files := files m; temp_file_path := p |}.

(** What a run leaves behind for an observer: the job table after each
    write to it (what a status poll at that moment reads), and the calls
    to the two external services. *)
Inductive event : Type :=
  | EvStore (snapshot : gmap string (gmap string pyval))
  | EvOpenPdf (path : string)
  | EvChat (model prompt : string).

Inductive outcome (A : Type) : Type :=
  | Normal (a : A)
  | Raised (e : pyexn).
Arguments Normal {A} a.
Arguments Raised {A} e.

Definition M (A : Type) : Type := Machine -> outcome A * Machine * list event.

Definition ret {A} (a : A) : M A := fun m => (Normal a, m, []).

Definition raise {A} (e : pyexn) : M A := fun m => (Raised e, m, []).

Definition bind {A B} (c : M A) (k : A -> M B) : M B :=
  fun m =>
    match c m with
    | (Normal a, m1, ev1) =>
        match k a m1 with
        | (r, m2, ev2) => (r, m2, (ev1 ++ ev2)%list)
        end
    | (Raised e, m1, ev1) => (Raised e, m1, ev1)
    end.

Declare Scope run_scope.
Delimit Scope run_scope with run.
Notation "x <- c ;; k" := (bind c (fun x => k))
  (at level 100, c at next level, right associativity) : run_scope.
Notation "c ;; k" := (bind c (fun _ => k))
  (at level 100, right associativity) : run_scope.

(** [try: body  except Exception as e: handler e] *)
Definition try_except {A} (body : M A) (handler : pyexn -> M A) : M A :=
  fun m =>
    match body m with
    | (Normal a, m1, ev1) => (Normal a, m1, ev1)
    | (Raised e, m1, ev1) =>
        match handler e m1 with
        | (r, m2, ev2) => (r, m2, (ev1 ++ ev2)%list)
        end
    end.

(** [try: body  finally: cleanup]: the cleanup runs on every exit; the
    outcome of the body stands unless the cleanup itself raises. *)
Definition try_finally {A} (body : M A) (cleanup : M unit) : M A :=
  fun m =>
    match body m with
    | (r, m1, ev1) =>
        match cleanup m1 with
        | (Normal _, m2, ev2) => (r, m2, (ev1 ++ ev2)%list)
        | (Raised e, m2, ev2) => (Raised e, m2, (ev1 ++ ev2)%list)
        end
    end.

Definition emit (e : event) : M unit := fun m => (Normal tt, m, [e]).

Definition get_machine : M Machine := fun m => (Normal m, m, []).

(** [tasks_storage[job_id] = rec]: binds the key to a new dict. *)
Definition store_record (job_id : string) (rec : gmap string pyval) : M unit :=
  fun m =>
    let st := <[job_id := rec]> (tasks_storage m) in
    (Normal tt, set_storage st m, [EvStore st]).

(** [tasks_storage[job_id][field] = v]: the subscript [tasks_storage[job_id]]
    raises [KeyError] when the job is unknown; otherwise the job's dict is
    updated in place. *)
Definition store_field (job_id field : string) (v : pyval) : M unit :=
  fun m =>
    match tasks_storage m !! job_id with
    | None => (Raised (KeyError job_id), m, [])
    | Some rec =>
        let st := <[job_id := <[field := v]> rec]> (tasks_storage m) in
        (Normal tt, set_storage st m, [EvStore st])
    end.

(** ** The port adapters *)

(** The [for page in pdf.pages] loop of [extract_text_from_pdf] with the
    accumulator [text]; [None] when a page raises. *)
Fixpoint extract_pages (pages : list page_outcome) (text : string) : option string :=
  match pages with
  | [] => Some text
  | PageFault :: _ => None
  | PageText page_text :: rest =>
      if PyStr.truthy page_text
      then extract_pages rest (text +:+ default "" page_text +:+ String "010" "")
      else extract_pages rest text
  end.

(** [extract_text_from_pdf] (lines 31-42). Every exception is swallowed by
    the function's own [except] and becomes [None]; an absent path or file
    makes [pdfplumber.open] raise. *)
Definition extract_text_from_pdf (w : World) (pdf_path : option string) : M (option string) :=
  fun m =>
    match pdf_path with
    | None => (Normal None, m, [])
    | Some path =>
        (Normal
           (match files m !! path with
            | None => None
            | Some bytes =>
                match pdfplumber_open w bytes with
                | None => None
                | Some pages => PyStr.strip <$> extract_pages pages ""
                end
            end),
         m, [EvOpenPdf path])
    end.

(** The f-string of [summarize_text] (lines 47-52) around [{text[:4000]}]. *)
Definition prompt_head : string :=
  "Buatlah ringkasan komprehensif dari teks berikut dalam bahasa Indonesia. "
  +:+ String "010" "Ringkasan harus mencakup poin-poin utama dan informasi penting:"
  +:+ String "010" (String "010" "").

Definition prompt_tail : string :=
  String "010" (String "010" "Berikan ringkasan yang jelas dan terstruktur.").

Definition make_prompt (text : string) : string :=
  prompt_head +:+ PyStr.slice_to 4000 text +:+ prompt_tail.

(** [summarize_text] (lines 44-64): one chat request with the prompt as
    the user message; every exception becomes [None]. *)
Definition summarize_text (w : World) (text : string) : M (option string) :=
  fun m =>
    let prompt := make_prompt text in
    (Normal
       (match ollama_chat w OLLAMA_MODEL prompt with
        | ChatFault => None
        | ChatContent c => Some c
        end),
     m, [EvChat OLLAMA_MODEL prompt]).

(** ** The job runner *)

Definition NO_TEXT_MESSAGE : string :=
  "No text found in PDF. The file might be empty or contain only images.".

Definition NO_SUMMARY_MESSAGE : string :=
  "Failed to generate summary. Ollama might be unavailable.".

(** The record written on the three error exits: a new dict with two keys. *)
Definition error_record (msg : string) : gmap string pyval :=
  {[ "status" := VStr "error"; "error" := VStr msg ]}.

(** The record written on success (lines 104-109). *)
Definition completed_record (filename text summary : string) : gmap string pyval :=
  {[ "status" := VStr "completed";
     "filename" := VStr filename;
     "text_length" := VInt (PyStr.len text);
     "summary" := VStr summary ]}.

(** Lines 71-74: the temporary file is created, written and flushed, and
    only then is its name assigned to [temp_file_path]. *)
Definition write_temp_file (w : World) (content : list byte) : M unit :=
  fun m =>
    match named_temporary_file w with
    | TempCreateFault e => (Raised e, m, [])
    | TempWriteFault path e => (Raised e, set_files (<[path := []]> (files m)) m, [])
    | TempOk path =>
        (Normal tt,
         set_temp_file_path (Some path) (set_files (<[path := content]> (files m)) m),
         [])
    end.

(** The body of the [try] (lines 70-109); the two early [return]s are the
    branches that end in an error record. *)
Definition pipeline (w : World) (job_id : string) (content : list byte)
    (filename : string) : M unit :=
  (write_temp_file w content ;;
   store_field job_id "status" (VStr "extracting") ;;
   m <- get_machine ;;
   text <- extract_text_from_pdf w (temp_file_path m) ;;
   if negb (PyStr.truthy text) then
     store_record job_id (error_record NO_TEXT_MESSAGE)
   else
     store_field job_id "status" (VStr "summarizing") ;;
     store_field job_id "text_length" (VInt (PyStr.len (default "" text))) ;;
     summary <- summarize_text w (default "" text) ;;
     if negb (PyStr.truthy summary) then
       store_record job_id (error_record NO_SUMMARY_MESSAGE)
     else
       store_record job_id
         (completed_record filename (default "" text) (default "" summary)))%run.

(** The [except Exception as e] clause (lines 111-115). *)
Definition on_exception (job_id : string) (e : pyexn) : M unit :=
  store_record job_id (error_record (str_exn e)).

(** The [finally] clause (lines 116-122); a failing [os.unlink] is
    swallowed by the bare [except]. *)
Definition cleanup (w : World) : M unit :=
  fun m =>
    match temp_file_path m with
    | Some path =>
        if PyStr.truthy (Some path) && bool_decide (is_Some (files m !! path))
        then
          if unlink_succeeds w
          then (Normal tt, set_files (delete path (files m)) m, [])
          else (Normal tt, m, [])
        else (Normal tt, m, [])
    | None => (Normal tt, m, [])
    end.

(** [process_pdf_thread] (lines 66-122). *)
Definition process_pdf_thread (w : World) (job_id : string) (content : list byte)
    (filename : string) : M unit :=
  fun m =>
    try_finally
      (try_except (pipeline w job_id content filename) (on_exception job_id))
      (cleanup w)
      (set_temp_file_path None m).

(** ** The HTTP handlers *)

(** [raise HTTPException(status_code=..., detail=...)] *)
Record HTTPException : Type := {
  status_code : Z;
  detail : string;
}.

(** What a successful [POST /summarize] does besides updating the job
    table: the JSON body it answers and the arguments of the thread it
    starts. *)
Record Accepted : Type := {
  response : gmap string pyval;
  thread_args : string * list byte * string;
}.

(** The record a job is created with (lines 170-173). *)
Definition new_record (filename : string) : gmap string pyval :=
  {[ "status" := VStr "processing"; "filename" := VStr filename ]}.

(** [summarize_pdf] (lines 144-188): the answer and the job table it
    leaves. [uuid4] is the string [str(uuid.uuid4())] evaluates to in this
    call. *)
Definition summarize_pdf (uuid4 : string) (filename : string) (content : list byte)
    (st : gmap string (gmap string pyval)) :
    (HTTPException + Accepted) * gmap string (gmap string pyval) :=
  let file_ext := PyStr.lower (snd (OsPath.splitext filename)) in
  if bool_decide (file_ext ∉ ALLOWED_EXTENSIONS) then
    (inl {| status_code := 400;
            detail := "Invalid file type. Only PDF files are allowed." |}, st)
  else if MAX_FILE_SIZE <? Z.of_nat (length content) then
    (inl {| status_code := 400;
            detail := "File too large. Maximum size is 10MB." |}, st)
  else
    let job_id := uuid4 in
    (inr {| response :=
              {[ "job_id" := VStr job_id;
                 "status" := VStr "processing";
                 "message" :=
                   VStr "Your PDF is being processed. Use the job_id to check status." ]};
            thread_args := (job_id, content, filename) |},
     <[job_id := new_record filename]> st).

(** [get_summary_status] (lines 190-196). *)
Definition get_summary_status (job_id : string)
    (st : gmap string (gmap string pyval)) : HTTPException + gmap string pyval :=
  match st !! job_id with
  | None => inl {| status_code := 404; detail := "Job not found" |}
  | Some rec => inr rec
  end.

(** ** Observations on a run *)

(** The three components of a run of the job runner from machine [m]. *)
Definition run_outcome (w : World) (job_id : string) (content : list byte)
    (filename : string) (m : Machine) : outcome unit :=
  fst (fst (process_pdf_thread w job_id content filename m)).

Definition run_final (w : World) (job_id : string) (content : list byte)
    (filename : string) (m : Machine) : Machine :=
  snd (fst (process_pdf_thread w job_id content filename m)).

Definition run_events (w : World) (job_id : string) (content : list byte)
    (filename : string) (m : Machine) : list event :=
  snd (process_pdf_thread w job_id content filename m).

(** The job tables a run wrote, oldest first. *)
Definition snapshots (evs : list event) : list (gmap string (gmap string pyval)) :=
  omap (fun e => match e with EvStore st => Some st | _ => None end) evs.

(** The chat requests a run sent, as (model, prompt). *)
Definition chat_calls (evs : list event) : list (string * string) :=
  omap (fun e => match e with EvChat md p => Some (md, p) | _ => None end) evs.

(** Every job table a poller can read during the job's life: the one the
    runner starts from, then each one it writes. *)
Definition history (w : World) (job_id : string) (content : list byte)
    (filename : string) (m : Machine) : list (gmap string (gmap string pyval)) :=
  tasks_storage m :: snapshots (run_events w job_id content filename m).

(** The field [field] of the job's record in the table [st], as
    [GET /summarize/{job_id}] shows it. *)
Definition job_field (job_id field : string)
    (st : gmap string (gmap string pyval)) : option pyval :=
  st !! job_id ≫= (fun rec => rec !! field).

Definition job_status (job_id : string) (st : gmap string (gmap string pyval)) : option pyval :=
  job_field job_id "status" st.

(** Pipeline order of the status values. *)
Definition status_rank (v : pyval) : option nat :=
  match v with
  | VStr s =>
      if decide (s = "processing") then Some 0%nat
      else if decide (s = "extracting") then Some 1%nat
      else if decide (s = "summarizing") then Some 2%nat
      else if decide (s = "completed") then Some 3%nat
      else if decide (s = "error") then Some 3%nat
      else None
  | VInt _ => None
  end.

Definition terminal (job_id : string) (st : gmap string (gmap string pyval)) : Prop :=
  job_status job_id st = Some (VStr "completed")
  ∨ job_status job_id st = Some (VStr "error").

(** A field is populated when the record has the key. *)
Definition populated (job_id field : string) (st : gmap string (gmap string pyval)) : Prop :=
  is_Some (job_field job_id field st).

(** What the extraction port gives for a file of bytes [content]. *)
Definition extracted (w : World) (content : list byte) : option string :=
  match pdfplumber_open w content with
  | None => None
  | Some pages => PyStr.strip <$> extract_pages pages ""
  end.

(** What the summarization port gives for the text [text]. *)
Definition summarized (w : World) (text : string) : option string :=
  match ollama_chat w OLLAMA_MODEL (make_prompt text) with
  | ChatFault => None
  | ChatContent c => Some c
  end.

(** The exception of a failing temporary-file block. *)
Definition temp_fault (o : tempfile_outcome) : option pyexn :=
  match o with
  | TempCreateFault e | TempWriteFault _ e => Some e
  | TempOk _ => None
  end.

(** The five shapes a run can take from the job table [st]: the events it
    emits and the job table it ends with. *)
Inductive run_shape (w : World) (job_id : string) (content : list byte)
    (filename : string) (st : gmap string (gmap string pyval)) :
    list event -> gmap string (gmap string pyval) -> Prop :=
  | shape_temp_fault e :
      temp_fault (named_temporary_file w) = Some e ->
      let st1 := <[job_id := error_record (str_exn e)]> st in
      run_shape w job_id content filename st [EvStore st1] st1
  | shape_unknown_job path :
      named_temporary_file w = TempOk path ->
      st !! job_id = None ->
      let st1 := <[job_id := error_record (str_exn (KeyError job_id))]> st in
      run_shape w job_id content filename st [EvStore st1] st1
  | shape_no_text path rec :
      named_temporary_file w = TempOk path ->
      st !! job_id = Some rec ->
      PyStr.truthy (extracted w content) = false ->
      let st1 := <[job_id := <["status" := VStr "extracting"]> rec]> st in
      let st2 := <[job_id := error_record NO_TEXT_MESSAGE]> st1 in
      run_shape w job_id content filename st
        [EvStore st1; EvOpenPdf path; EvStore st2] st2
  | shape_no_summary path rec c text :
      named_temporary_file w = TempOk path ->
      st !! job_id = Some rec ->
      extracted w content = Some (String c text) ->
      PyStr.truthy (summarized w (String c text)) = false ->
      let rec1 := <["status" := VStr "extracting"]> rec in
      let rec2 := <["status" := VStr "summarizing"]> rec1 in
      let rec3 := <["text_length" := VInt (PyStr.len (String c text))]> rec2 in
      let st1 := <[job_id := rec1]> st in
      let st2 := <[job_id := rec2]> st1 in
      let st3 := <[job_id := rec3]> st2 in
      let st4 := <[job_id := error_record NO_SUMMARY_MESSAGE]> st3 in
      run_shape w job_id content filename st
        [EvStore st1; EvOpenPdf path; EvStore st2; EvStore st3;
         EvChat OLLAMA_MODEL (make_prompt (String c text)); EvStore st4] st4
  | shape_completed path rec c text d summary :
      named_temporary_file w = TempOk path ->
      st !! job_id = Some rec ->
      extracted w content = Some (String c text) ->
      summarized w (String c text) = Some (String d summary) ->
      let rec1 := <["status" := VStr "extracting"]> rec in
      let rec2 := <["status" := VStr "summarizing"]> rec1 in
      let rec3 := <["text_length" := VInt (PyStr.len (String c text))]> rec2 in
      let st1 := <[job_id := rec1]> st in
      let st2 := <[job_id := rec2]> st1 in
      let st3 := <[job_id := rec3]> st2 in
      let st4 :=
        <[job_id := completed_record filename (String c text) (String d summary)]> st3 in
      run_shape w job_id content filename st
        [EvStore st1; EvOpenPdf path; EvStore st2; EvStore st3;
         EvChat OLLAMA_MODEL (make_prompt (String c text)); EvStore st4] st4.

(** The two ways a record can agree with its status, and the two results
    of a finished job. *)
Definition fields_match_status (job_id : string)
    (st : gmap string (gmap string pyval)) : Prop :=
  (populated job_id "summary" st ↔ job_status job_id st = Some (VStr "completed"))
  ∧ (populated job_id "error" st ↔ job_status job_id st = Some (VStr "error")).

Definition exactly_one_result (job_id : string)
    (st : gmap string (gmap string pyval)) : Prop :=
  (populated job_id "summary" st ∧ ¬ populated job_id "error" st)
  ∨ (populated job_id "error" st ∧ ¬ populated job_id "summary" st).


(** ** Sample worlds and machines *)

(** A job table holding one job as [summarize_pdf] creates it. *)
Definition submitted (job_id filename : string) : Machine :=
  {| tasks_storage := {[ job_id := new_record filename ]};
     files := ∅;
     temp_file_path := None |}.

(** A one-page PDF with text, and an Ollama server that answers. *)
Definition world_ok : World :=
  {| named_temporary_file := TempOk "/tmp/tmpa1.pdf";
     pdfplumber_open := fun _ => Some [PageText (Some "Hello")];
     ollama_chat := fun _ _ => ChatContent "Ringkasan";
     unlink_succeeds := true |}.

(** A scanned PDF: one page without text. *)
Definition world_scanned : World :=
  {| named_temporary_file := TempOk "/tmp/tmpa1.pdf";
     pdfplumber_open := fun _ => Some [PageText None];
     ollama_chat := fun _ _ => ChatContent "Ringkasan";
     unlink_succeeds := true |}.

(** The Ollama server cannot be reached. *)
Definition world_offline : World :=
  {| named_temporary_file := TempOk "/tmp/tmpa1.pdf";
     pdfplumber_open := fun _ => Some [PageText (Some "Hello")];
     ollama_chat := fun _ _ => ChatFault;
     unlink_succeeds := true |}.

(** The model answers with empty content. *)
Definition world_blank : World :=
  {| named_temporary_file := TempOk "/tmp/tmpa1.pdf";
     pdfplumber_open := fun _ => Some [PageText (Some "Hello")];
     ollama_chat := fun _ _ => ChatContent "";
     unlink_succeeds := true |}.

(** The temporary directory is full. *)
Definition world_disk_full : World :=
  {| named_temporary_file := TempCreateFault (OtherError "[Errno 28] No space left on device");
     pdfplumber_open := fun _ => None;
     ollama_chat := fun _ _ => ChatFault;
     unlink_succeeds := true |}.

(** A string of [n] copies of the character [c]. *)
Fixpoint replicate_char (n : nat) (c : ascii) : string :=
  match n with
  | O => EmptyString
  | S n' => String c (replicate_char n' c)
  end.

(** ** Further notions for the properties below *)

(** The characters of a string, in order. *)
Definition chars (s : string) : list ascii := list_ascii_of_string s.

(** A string of whitespace only. *)
Definition all_space (s : string) : Prop :=
  Forall (fun c => PyStr.is_space c = true) (chars s).

(** What the pages of a PDF contribute to the text, in page order: each
    non-empty page text followed by a newline. *)
Fixpoint joined_text (pages : list page_outcome) : string :=
  match pages with
  | [] => ""
  | PageText (Some (String c t)) :: rest =>
      String c t +:+ String "010" "" +:+ joined_text rest
  | _ :: rest => joined_text rest
  end.

(** A computation that leaves the temporary files and the local variable
    [temp_file_path] as they were, whatever it returns. *)
Definition keeps_temp_files {A} (c : M A) : Prop :=
  ∀ m, files (snd (fst (c m))) = files m
       ∧ temp_file_path (snd (fst (c m))) = temp_file_path m.

(** The disk fills up while the upload is written to the temporary file. *)
Definition world_write_fault : World :=
  {| named_temporary_file :=
       TempWriteFault "/tmp/tmpb2.pdf" (OtherError "[Errno 28] No space left on device");
     pdfplumber_open := fun _ => None;
     ollama_chat := fun _ _ => ChatFault;
     unlink_succeeds := true |}.

(** A PDF of two pages that hold only blanks and line breaks. *)
Definition world_blank_pages : World :=
  {| named_temporary_file := TempOk "/tmp/tmpa1.pdf";
     pdfplumber_open :=
       fun _ => Some [PageText (Some "  "); PageText (Some (String "010" " "))];
     ollama_chat := fun _ _ => ChatContent "Ringkasan";
     unlink_succeeds := true |}.

(** * Properties *)

(** ** The string functions on examples *)

Example splitext_plain : OsPath.splitext "report.pdf" = ("report", ".pdf").
Proof. reflexivity. Qed.

Example splitext_hidden : OsPath.splitext ".pdf" = (".pdf", "").
Proof. reflexivity. Qed.

Example splitext_directory_dot : OsPath.splitext "a.b/c" = ("a.b/c", "").
Proof. reflexivity. Qed.

Example splitext_last_dot : OsPath.splitext "x/.a.tar.GZ" = ("x/.a.tar", ".GZ").
Proof. reflexivity. Qed.

Example lower_mixed_case : PyStr.lower ".PdF" = ".pdf".
Proof. reflexivity. Qed.

Example strip_both_ends :
  PyStr.strip (" " +:+ String "009" "a b" +:+ String "010" " ") = "a b".
Proof. reflexivity. Qed.

Example strip_only_spaces : PyStr.strip (String "010" "  ") = "".
Proof. reflexivity. Qed.

Example extract_two_pages :
  extract_pages [PageText (Some "Hello"); PageText None; PageText (Some " world ")] ""
    = Some ("Hello" +:+ String "010" " world " +:+ String "010" "").
Proof. reflexivity. Qed.

Example extract_page_fault :
  extract_pages [PageText (Some "Hello"); PageFault] "" = None.
Proof. reflexivity. Qed.

(** ** The runner's exits *)

(** The [finally] clause never raises, emits nothing, and touches only
    the temporary files. *)
Lemma cleanup_normal (w : World) (m : Machine) :
  ∃ fs, cleanup w m = (Normal tt, set_files fs m, []).
Proof.
  unfold cleanup.
  destruct (temp_file_path m) as [path|]; [|by exists (files m); destruct m].
  destruct (PyStr.truthy (Some path) && bool_decide (is_Some (files m !! path)));
    [|by exists (files m); destruct m].
  destruct (unlink_succeeds w); [by eexists|by exists (files m); destruct m].
Qed.

Lemma try_finally_cleanup (w : World) (body : M unit) (m m1 : Machine)
    (r : outcome unit) (evs : list event) :
  body m = (r, m1, evs) ->
  ∃ fs, try_finally body (cleanup w) m = (r, set_files fs m1, evs).
Proof.
  intros Hbody. unfold try_finally. rewrite Hbody.
  destruct (cleanup_normal w m1) as [fs ->].
  exists fs. by rewrite app_nil_r.
Qed.

(** Every run returns normally and has one of the five shapes. *)
Lemma process_pdf_thread_shape (w : World) (job_id : string) (content : list byte)
    (filename : string) (m : Machine) :
  ∃ m' evs,
    process_pdf_thread w job_id content filename m = (Normal tt, m', evs)
    ∧ run_shape w job_id content filename (tasks_storage m) evs (tasks_storage m').
Proof.
  unfold process_pdf_thread.
  set (m0 := set_temp_file_path None m).
  assert (∃ m1 evs,
    try_except (pipeline w job_id content filename) (on_exception job_id) m0
      = (Normal tt, m1, evs)
    ∧ run_shape w job_id content filename (tasks_storage m) evs (tasks_storage m1))
    as (m1 & evs & Hrun & Hshape).
  { unfold try_except, pipeline, bind, write_temp_file.
    destruct (named_temporary_file w) as [e|path e|path] eqn:Htemp; simpl.
    - do 2 eexists; split; [reflexivity|]. apply shape_temp_fault. by rewrite Htemp.
    - do 2 eexists; split; [reflexivity|]. apply shape_temp_fault. by rewrite Htemp.
    - unfold store_field at 1; simpl.
      destruct (tasks_storage m !! job_id) as [rec|] eqn:Hjob; simpl.
      2:{ do 2 eexists; split; [reflexivity|]. by eapply shape_unknown_job. }
      rewrite lookup_insert_eq. fold (extracted w content).
      destruct (extracted w content) as [[|c text]|] eqn:Htext; simpl.
      + do 2 eexists; split; [reflexivity|].
        eapply shape_no_text; eauto. by rewrite Htext.
      + unfold store_field; simpl. rewrite !lookup_insert_eq; simpl.
        rewrite !lookup_insert_eq; simpl.
        fold (summarized w (String c text)).
        destruct (summarized w (String c text)) as [[|d summary]|] eqn:Hsum; simpl.
        * do 2 eexists; split; [reflexivity|].
          eapply shape_no_summary; eauto. by rewrite Hsum.
        * do 2 eexists; split; [reflexivity|]. eapply shape_completed; eauto.
        * do 2 eexists; split; [reflexivity|].
          eapply shape_no_summary; eauto. by rewrite Hsum.
      + do 2 eexists; split; [reflexivity|].
        eapply shape_no_text; eauto. by rewrite Htext. }
  destruct (try_finally_cleanup w _ _ _ _ _ Hrun) as [fs ->].
  by exists (set_files fs m1), evs.
Qed.

(** ** Reading job tables *)

Lemma job_field_insert (job_id field : string) (rec : gmap string pyval)
    (st : gmap string (gmap string pyval)) :
  job_field job_id field (<[job_id := rec]> st) = rec !! field.
Proof. unfold job_field. by rewrite lookup_insert_eq. Qed.

Lemma job_field_known (job_id field : string) (rec : gmap string pyval)
    (st : gmap string (gmap string pyval)) :
  st !! job_id = Some rec -> job_field job_id field st = rec !! field.
Proof. unfold job_field. by intros ->. Qed.

Ltac subst_let := repeat match goal with x := _ |- _ => subst x end.

(** The runner writes to its own job only. *)
Lemma run_shape_frame w job_id content filename st evs st' other :
  run_shape w job_id content filename st evs st' ->
  other ≠ job_id ->
  Forall (fun s => s !! other = st !! other) (snapshots evs).
Proof.
  intros Hshape Hne.
  destruct Hshape; simpl; repeat constructor; subst_let;
    by rewrite ?lookup_insert_ne.
Qed.

Ltac read_fields :=
  unfold terminal, populated, job_status;
  rewrite ?job_field_insert;
  unfold error_record, completed_record, new_record;
  repeat first
    [ rewrite lookup_insert_eq
    | rewrite lookup_insert_ne by done
    | rewrite lookup_singleton_eq
    | rewrite lookup_singleton_ne by done ];
  simpl.

Ltac forall_cases :=
  repeat match goal with
    | |- Forall _ (_ :: _) => constructor
    | |- Forall _ [] => constructor
    end.

Ltac sorted_ranks :=
  repeat first [ apply SSorted_nil | apply SSorted_cons | progress forall_cases | lia ].

(** The shapes that start from a known job. *)
Ltac known_job Hjob :=
  try match goal with
      | H : tasks_storage _ !! _ = _ |- _ => rewrite Hjob in H; simplify_eq
      end.


(** What the two port adapters return. *)
Lemma extract_text_from_pdf_extracted (w : World) (path : string)
    (content : list byte) (m : Machine) :
  files m !! path = Some content ->
  extract_text_from_pdf w (Some path) m
    = (Normal (extracted w content), m, [EvOpenPdf path]).
Proof. intros Hfile. unfold extract_text_from_pdf, extracted. by rewrite Hfile. Qed.

Lemma summarize_text_summarized (w : World) (text : string) (m : Machine) :
  summarize_text w text m
    = (Normal (summarized w text), m, [EvChat OLLAMA_MODEL (make_prompt text)]).
Proof. reflexivity. Qed.


(** ** The job runner *)


(** C2. For a job created by [summarize_pdf], the statuses a poller can
    read, from the creation of the job to the end of the run, all have a
    place in the order processing, extracting, summarizing, terminal, and
    never go down in it. *)
Theorem status_never_regresses (w : World) (job_id : string)
    (content : list byte) (filename : string) (m : Machine) :
  tasks_storage m !! job_id = Some (new_record filename) ->
  ∃ ranks,
    (fun st => job_status job_id st ≫= status_rank)
      <$> history w job_id content filename m = Some <$> ranks
    ∧ StronglySorted le ranks.
Proof.
  intros Hjob.
  destruct (process_pdf_thread_shape w job_id content filename m)
    as (m' & evs & Hrun & Hshape).
  unfold history, run_events. rewrite Hrun. simpl.
  unfold job_status at 1. rewrite (job_field_known _ _ _ _ Hjob).
  destruct Hshape; subst_let; simpl; known_job Hjob; read_fields.
  - exists [0; 3]%nat. split; [done|sorted_ranks].
  - exists [0; 1; 3]%nat. split; [done|sorted_ranks].
  - exists [0; 1; 2; 2; 3]%nat. split; [done|sorted_ranks].
  - exists [0; 1; 2; 2; 3]%nat. split; [done|sorted_ranks].
Qed.

(** The run of a one-page PDF with a reachable server, from the table
    [summarize_pdf] leaves. *)
Lemma status_never_regresses_witness :
  tasks_storage (submitted "job-1" "paper.pdf") !! "job-1"
    = Some (new_record "paper.pdf")
  ∧ ∃ ranks,
      (fun st => job_status "job-1" st ≫= status_rank)
        <$> history world_ok "job-1" [] "paper.pdf" (submitted "job-1" "paper.pdf")
        = Some <$> ranks
      ∧ StronglySorted le ranks.
Proof.
  split; [apply lookup_singleton_eq|].
  apply (status_never_regresses world_ok "job-1" [] "paper.pdf"
           (submitted "job-1" "paper.pdf")).
  apply lookup_singleton_eq.
Defined.

(** C4. For a job created by [summarize_pdf], in every job table a poller
    can read, the record has the key [summary] exactly when its status is
    [completed] and the key [error] exactly when its status is [error];
    a record in a terminal state has exactly one of the two keys. *)
Theorem summary_and_error_follow_status (w : World) (job_id : string)
    (content : list byte) (filename : string) (m : Machine) :
  tasks_storage m !! job_id = Some (new_record filename) ->
  Forall
    (fun st =>
       fields_match_status job_id st
       ∧ (terminal job_id st -> exactly_one_result job_id st))
    (history w job_id content filename m).
Proof.
  intros Hjob.
  destruct (process_pdf_thread_shape w job_id content filename m)
    as (m' & evs & Hrun & Hshape).
  unfold history, run_events. rewrite Hrun. simpl.
  constructor.
  { unfold fields_match_status, exactly_one_result, terminal, populated, job_status.
    rewrite !(job_field_known _ _ _ _ Hjob). unfold new_record.
    rewrite !lookup_insert_eq, !lookup_insert_ne, !lookup_singleton_ne by done.
    split; [split; split|]; try done; try by intros [? ?].
    by intros [?|?]. }
  destruct Hshape; subst_let; simpl; known_job Hjob; forall_cases;
    unfold fields_match_status, exactly_one_result;
    read_fields;
    (split; [split; split|]); try done; try (by intros [? ?]);
    try (by intros [?|?]);
    intros _; first [ left; split; [done|by intros [? ?]]
                    | right; split; [done|by intros [? ?]] ].
Qed.

(** The run with a model that answers with empty content. *)
Lemma summary_and_error_follow_status_witness :
  tasks_storage (submitted "job-2" "paper.pdf") !! "job-2"
    = Some (new_record "paper.pdf")
  ∧ Forall
      (fun st =>
         fields_match_status "job-2" st
         ∧ (terminal "job-2" st -> exactly_one_result "job-2" st))
      (history world_blank "job-2" [] "paper.pdf" (submitted "job-2" "paper.pdf")).
Proof.
  split; [apply lookup_singleton_eq|].
  apply (summary_and_error_follow_status world_blank "job-2" [] "paper.pdf"
           (submitted "job-2" "paper.pdf")).
  apply lookup_singleton_eq.
Defined.



(** C7, as the spec states it, fails: on a scanned PDF the job created
    with filename [scan.pdf] ends in [error] with a record that has no
    [filename] key. *)
Lemma filename_lost_on_error :
  job_field "job-4" "filename" (tasks_storage (submitted "job-4" "scan.pdf"))
    = Some (VStr "scan.pdf")
  ∧ job_status "job-4"
      (tasks_storage
         (run_final world_scanned "job-4" [] "scan.pdf" (submitted "job-4" "scan.pdf")))
    = Some (VStr "error")
  ∧ job_field "job-4" "filename"
      (tasks_storage
         (run_final world_scanned "job-4" [] "scan.pdf" (submitted "job-4" "scan.pdf")))
    = None.
Proof. vm_compute. done. Qed.

(** C7, amended. For a job created by [summarize_pdf] with the name
    [filename], every job table a poller can read shows that same
    [filename] while the status is not [error] (processing, extracting,
    summarizing, completed); a record in status [error] has no [filename]
    key. *)
Theorem filename_kept_until_error (w : World) (job_id : string)
    (content : list byte) (filename : string) (m : Machine) :
  tasks_storage m !! job_id = Some (new_record filename) ->
  Forall
    (fun st =>
       if decide (job_status job_id st = Some (VStr "error"))
       then job_field job_id "filename" st = None
       else job_field job_id "filename" st = Some (VStr filename))
    (history w job_id content filename m).
Proof.
  intros Hjob.
  destruct (process_pdf_thread_shape w job_id content filename m)
    as (m' & evs & Hrun & Hshape).
  unfold history, run_events. rewrite Hrun. simpl.
  constructor.
  { unfold job_status. rewrite !(job_field_known _ _ _ _ Hjob). by case_decide. }
  destruct Hshape; subst_let; simpl; known_job Hjob; forall_cases;
    read_fields; done.
Qed.

(** The run that completes keeps [paper.pdf] throughout. *)
Lemma filename_kept_until_error_witness :
  tasks_storage (submitted "job-4" "paper.pdf") !! "job-4"
    = Some (new_record "paper.pdf")
  ∧ Forall
      (fun st =>
         if decide (job_status "job-4" st = Some (VStr "error"))
         then job_field "job-4" "filename" st = None
         else job_field "job-4" "filename" st = Some (VStr "paper.pdf"))
      (history world_ok "job-4" [] "paper.pdf" (submitted "job-4" "paper.pdf")).
Proof.
  split; [apply lookup_singleton_eq|].
  apply (filename_kept_until_error world_ok "job-4" [] "paper.pdf"
           (submitted "job-4" "paper.pdf")).
  apply lookup_singleton_eq.
Defined.

(** C3, as the spec states it, fails: with the Ollama server unreachable,
    [text_length] is 5 while the job is summarizing, and the record left
    after the transition to [error] has no [text_length] key. *)
Lemma text_length_lost_on_error :
  job_field "job-5" "text_length"
    <$> history world_offline "job-5" [] "paper.pdf" (submitted "job-5" "paper.pdf")
    = [None; None; None; Some (VInt 5); None]
  ∧ job_field "job-5" "error"
      (tasks_storage
         (run_final world_offline "job-5" [] "paper.pdf" (submitted "job-5" "paper.pdf")))
    = Some (VStr NO_SUMMARY_MESSAGE).
Proof. vm_compute. done. Qed.

(** C3, amended. When extraction gave the text [text] and the
    summarization step then fails, [text_length] is readable only in the
    last job table before the transition; the record left behind is the
    error record, whose only keys are [status] and [error], the latter
    with the "Ollama might be unavailable" message. *)
Theorem summarization_failure_record (w : World) (job_id : string)
    (content : list byte) (filename : string) (m : Machine)
    (path text : string) :
  named_temporary_file w = TempOk path ->
  tasks_storage m !! job_id = Some (new_record filename) ->
  extracted w content = Some text ->
  PyStr.truthy (Some text) = true ->
  PyStr.truthy (summarized w text) = false ->
  job_field job_id "text_length" <$> history w job_id content filename m
    = [None; None; None; Some (VInt (PyStr.len text)); None]
  ∧ tasks_storage (run_final w job_id content filename m) !! job_id
      = Some (error_record NO_SUMMARY_MESSAGE)
  ∧ dom (error_record NO_SUMMARY_MESSAGE) = ({[ "status"; "error" ]} : gset string)
  ∧ error_record NO_SUMMARY_MESSAGE !! "error" = Some (VStr NO_SUMMARY_MESSAGE).
Proof.
  intros Htemp Hjob Htext Hsome Hsum.
  destruct (process_pdf_thread_shape w job_id content filename m)
    as (m' & evs & Hrun & Hshape).
  unfold history, run_final, run_events. rewrite Hrun. simpl.
  rewrite (job_field_known _ _ _ _ Hjob).
  destruct Hshape; subst_let; simpl; known_job Hjob;
    try match goal with
        | H : temp_fault _ = Some _ |- _ => by rewrite Htemp in H
        | H : PyStr.truthy (extracted _ _) = false |- _ =>
            by rewrite Htext, Hsome in H
        | H : extracted _ _ = Some _ |- _ => rewrite Htext in H; simplify_eq
        end.
  - read_fields. repeat split; done.
  - match goal with H : summarized _ _ = Some _ |- _ => by rewrite H in Hsum end.
Qed.

(** The run with the Ollama server unreachable. *)
Lemma summarization_failure_record_witness :
  named_temporary_file world_offline = TempOk "/tmp/tmpa1.pdf"
  ∧ tasks_storage (submitted "job-5" "paper.pdf") !! "job-5"
      = Some (new_record "paper.pdf")
  ∧ extracted world_offline [] = Some "Hello"
  ∧ job_field "job-5" "text_length"
      <$> history world_offline "job-5" [] "paper.pdf" (submitted "job-5" "paper.pdf")
      = [None; None; None; Some (VInt (PyStr.len "Hello")); None]
  ∧ tasks_storage
      (run_final world_offline "job-5" [] "paper.pdf" (submitted "job-5" "paper.pdf"))
      !! "job-5" = Some (error_record NO_SUMMARY_MESSAGE).
Proof.
  split; [reflexivity|]. split; [apply lookup_singleton_eq|]. split; [reflexivity|].
  destruct (summarization_failure_record world_offline "job-5" [] "paper.pdf"
              (submitted "job-5" "paper.pdf") "/tmp/tmpa1.pdf" "Hello")
    as (Hlen & Hrec & _).
  - reflexivity.
  - apply lookup_singleton_eq.
  - reflexivity.
  - reflexivity.
  - reflexivity.
  - exact (conj Hlen Hrec).
Defined.

(** C9, as the spec states it, fails: an unreachable server and a model
    that answers with empty content give different signals at the port
    ([None] and the empty string) and the same job record. *)
Lemma failure_kinds_recorded_alike :
  fst (fst (summarize_text world_offline "Hello" (submitted "job-6" "paper.pdf")))
    = Normal None
  ∧ fst (fst (summarize_text world_blank "Hello" (submitted "job-6" "paper.pdf")))
    = Normal (Some "")
  ∧ tasks_storage
      (run_final world_offline "job-6" [] "paper.pdf" (submitted "job-6" "paper.pdf"))
      !! "job-6"
    = tasks_storage
        (run_final world_blank "job-6" [] "paper.pdf" (submitted "job-6" "paper.pdf"))
        !! "job-6".
Proof. split; [reflexivity|]. split; [reflexivity|]. vm_compute. reflexivity. Qed.

(** C9, amended. A failing summarization step is one of two cases at the
    port: the chat request raised and [summarize_text] returns [None], or
    the model gave empty content and [summarize_text] returns the empty
    string. In both the runner leaves the same error record, with the
    fixed "Ollama might be unavailable" message. *)
Theorem summarization_failures_share_message (w : World) (job_id : string)
    (content : list byte) (filename : string) (m : Machine)
    (path text : string) (rec : gmap string pyval) :
  named_temporary_file w = TempOk path ->
  tasks_storage m !! job_id = Some rec ->
  extracted w content = Some text ->
  PyStr.truthy (Some text) = true ->
  PyStr.truthy (summarized w text) = false ->
  ((ollama_chat w OLLAMA_MODEL (make_prompt text) = ChatFault
    ∧ fst (fst (summarize_text w text m)) = Normal None)
   ∨ (ollama_chat w OLLAMA_MODEL (make_prompt text) = ChatContent ""
      ∧ fst (fst (summarize_text w text m)) = Normal (Some "")))
  ∧ tasks_storage (run_final w job_id content filename m) !! job_id
      = Some (error_record NO_SUMMARY_MESSAGE).
Proof.
  intros Htemp Hjob Htext Hsome Hsum. split.
  - rewrite summarize_text_summarized. simpl.
    unfold summarized in *.
    destruct (ollama_chat w OLLAMA_MODEL (make_prompt text)) as [|[|? ?]];
      [by left|by right|done].
  - destruct (process_pdf_thread_shape w job_id content filename m)
      as (m' & evs & Hrun & Hshape).
    unfold run_final. rewrite Hrun. simpl.
    destruct Hshape; subst_let; simpl;
      try match goal with
          | H : temp_fault _ = Some _ |- _ => by rewrite Htemp in H
          | H : PyStr.truthy (extracted _ _) = false |- _ =>
              by rewrite Htext, Hsome in H
          | H : extracted _ _ = Some _ |- _ => rewrite Htext in H; simplify_eq
          end.
    + by rewrite lookup_insert_eq.
    + match goal with H : summarized _ _ = Some _ |- _ => by rewrite H in Hsum end.
Qed.

(** The run with a model that answers with empty content. *)
Lemma summarization_failures_share_message_witness :
  named_temporary_file world_blank = TempOk "/tmp/tmpa1.pdf"
  ∧ tasks_storage (submitted "job-6" "paper.pdf") !! "job-6"
      = Some (new_record "paper.pdf")
  ∧ extracted world_blank [] = Some "Hello"
  ∧ PyStr.truthy (summarized world_blank "Hello") = false
  ∧ tasks_storage
      (run_final world_blank "job-6" [] "paper.pdf" (submitted "job-6" "paper.pdf"))
      !! "job-6" = Some (error_record NO_SUMMARY_MESSAGE).
Proof.
  split; [reflexivity|]. split; [apply lookup_singleton_eq|]. split; [reflexivity|].
  split; [reflexivity|].
  apply (summarization_failures_share_message world_blank "job-6" [] "paper.pdf"
           (submitted "job-6" "paper.pdf") "/tmp/tmpa1.pdf" "Hello"
           (new_record "paper.pdf")).
  - reflexivity.
  - apply lookup_singleton_eq.
  - reflexivity.
  - reflexivity.
  - reflexivity.
Defined.

(** ** Truncation of the text sent to the model *)

Lemma slice_to_from (n : nat) (s : string) :
  PyStr.slice_to n s +:+ PyStr.slice_from n s = s.
Proof.
  revert s. induction n as [|n IH]; intros [|c s]; simpl; try done.
  change (String c (PyStr.slice_to n s +:+ PyStr.slice_from n s) = String c s).
  by rewrite IH.
Qed.

Lemma slice_to_length (n : nat) (s : string) :
  String.length (PyStr.slice_to n s) = Nat.min n (String.length s).
Proof.
  revert s. induction n as [|n IH]; intros [|c s]; simpl; try done.
  by rewrite IH.
Qed.

Lemma slice_to_short (n : nat) (s : string) :
  (String.length s <= n)%nat -> PyStr.slice_to n s = s.
Proof.
  revert s. induction n as [|n IH]; intros [|c s]; simpl; try done; [lia|].
  intros Hlen. rewrite IH; [done|lia].
Qed.

(** A run sends at most one chat request, for the extracted text. *)
Lemma run_chat_calls (w : World) (job_id : string) (content : list byte)
    (filename : string) (m : Machine) :
  chat_calls (run_events w job_id content filename m) = []
  ∨ ∃ text,
      extracted w content = Some text
      ∧ chat_calls (run_events w job_id content filename m)
          = [(OLLAMA_MODEL, make_prompt text)].
Proof.
  destruct (process_pdf_thread_shape w job_id content filename m)
    as (m' & evs & Hrun & Hshape).
  unfold run_events. rewrite Hrun. simpl.
  destruct Hshape; subst_let; simpl; eauto.
Qed.

(** C8. The one chat request of [summarize_text] carries, between the
    fixed head and tail of the prompt, a prefix [input] of the text: the
    whole text when it has at most 4000 characters, its first 4000
    characters otherwise. *)
Theorem summarize_text_sends_prefix (w : World) (text : string) (m : Machine) :
  ∃ input,
    snd (summarize_text w text m)
      = [EvChat OLLAMA_MODEL (prompt_head +:+ input +:+ prompt_tail)]
    ∧ input +:+ PyStr.slice_from 4000 text = text
    ∧ PyStr.len input = Z.min (PyStr.len text) 4000
    ∧ (if PyStr.len text <=? 4000 then input = text else PyStr.len input = 4000).
Proof.
  exists (PyStr.slice_to 4000 text).
  assert (Z.of_nat 4000 = 4000) as H4000 by (vm_compute; reflexivity).
  assert (PyStr.len (PyStr.slice_to 4000 text) = Z.min (PyStr.len text) 4000) as Hlen.
  { unfold PyStr.len. rewrite slice_to_length, Nat2Z.inj_min, H4000. lia. }
  split; [reflexivity|]. split; [apply slice_to_from|]. split; [exact Hlen|].
  destruct (Z.leb_spec (PyStr.len text) 4000) as [Hle|Hgt].
  - apply slice_to_short. unfold PyStr.len in Hle. rewrite <- H4000 in Hle. lia.
  - rewrite Hlen. lia.
Qed.

Example prompt_short : make_prompt "Hello" = prompt_head +:+ "Hello" +:+ prompt_tail.
Proof. reflexivity. Qed.

Example prompt_long :
  make_prompt (replicate_char 4000 "a" +:+ "bcd")
    = prompt_head +:+ replicate_char 4000 "a" +:+ prompt_tail.
Proof. vm_compute. reflexivity. Qed.

(** ** Submission *)

Lemma accepted_extension (ext : string) :
  PyStr.lower ext ∈ ALLOWED_EXTENSIONS ↔ PyStr.lower ext = ".pdf".
Proof. unfold ALLOWED_EXTENSIONS. set_solver. Qed.


Example accepts_upper_case :
  ∃ acc, summarize_pdf "id-1" "REPORT.PDF" [] ∅
           = (inr acc, {[ "id-1" := new_record "REPORT.PDF" ]}).
Proof. eexists. vm_compute. reflexivity. Qed.

Example rejects_text_file :
  summarize_pdf "id-1" "notes.txt" [] ∅
    = (inl {| status_code := 400;
              detail := "Invalid file type. Only PDF files are allowed." |}, ∅).
Proof. vm_compute. reflexivity. Qed.

Example rejects_bare_dot_pdf :
  summarize_pdf "id-1" ".pdf" [] ∅
    = (inl {| status_code := 400;
              detail := "Invalid file type. Only PDF files are allowed." |}, ∅).
Proof. vm_compute. reflexivity. Qed.

(** With an accepted extension, a content within the bound creates the
    job. *)
Lemma summarize_pdf_within_bound (uuid4 filename : string) (content : list byte)
    (st : gmap string (gmap string pyval)) :
  PyStr.lower (snd (OsPath.splitext filename)) ∈ ALLOWED_EXTENSIONS ->
  Z.of_nat (length content) <= 10 * 1024 * 1024 ->
  ∃ resp,
    summarize_pdf uuid4 filename content st
      = (inr {| response := resp; thread_args := (uuid4, content, filename) |},
         <[uuid4 := new_record filename]> st)
    ∧ resp !! "job_id" = Some (VStr uuid4)
    ∧ new_record filename !! "status" = Some (VStr "processing").
Proof.
  intros Hext Hle. unfold summarize_pdf.
  rewrite bool_decide_eq_false_2 by (by intros Hno).
  destruct (Z.ltb_spec MAX_FILE_SIZE (Z.of_nat (length content))) as [Hbig|Hok].
  - unfold MAX_FILE_SIZE in Hbig. lia.
  - eexists. split; [reflexivity|]. done.
Qed.

(** A content of exactly 10 * 1024 * 1024 zero bytes is accepted. *)
Lemma accepts_exactly_max (uuid4 : string) (st : gmap string (gmap string pyval)) :
  ∃ acc,
    summarize_pdf uuid4 "paper.pdf" (repeat x00 (Z.to_nat MAX_FILE_SIZE)) st
      = (inr acc, <[uuid4 := new_record "paper.pdf"]> st).
Proof.
  destruct (summarize_pdf_within_bound uuid4 "paper.pdf"
              (repeat x00 (Z.to_nat MAX_FILE_SIZE)) st)
    as (resp & Heq & _).
  - apply accepted_extension. reflexivity.
  - rewrite repeat_length, Z2Nat.id; unfold MAX_FILE_SIZE; lia.
  - by eexists.
Qed.

(** C10. For a filename with an accepted extension, the only check on the
    content is the upper bound: longer than 10*1024*1024 bytes is refused
    with status 400; any other length, zero and exactly 10*1024*1024
    included, creates the job in status [processing] and answers with the
    job id. *)
Theorem summarize_pdf_size_bound (uuid4 filename : string) (content : list byte)
    (st : gmap string (gmap string pyval)) :
  PyStr.lower (snd (OsPath.splitext filename)) ∈ ALLOWED_EXTENSIONS ->
  let created :=
    ∃ resp,
      summarize_pdf uuid4 filename content st
        = (inr {| response := resp; thread_args := (uuid4, content, filename) |},
           <[uuid4 := new_record filename]> st)
      ∧ resp !! "job_id" = Some (VStr uuid4)
      ∧ new_record filename !! "status" = Some (VStr "processing") in
  (10 * 1024 * 1024 < Z.of_nat (length content) ->
   ∃ reason,
     summarize_pdf uuid4 filename content st
       = (inl {| status_code := 400; detail := reason |}, st))
  ∧ (Z.of_nat (length content) <= 10 * 1024 * 1024 -> created)
  ∧ (content = [] -> created)
  ∧ (Z.of_nat (length content) = 10 * 1024 * 1024 -> created).
Proof.
  intros Hext created.
  assert (Z.of_nat (length content) <= 10 * 1024 * 1024 -> created) as Hcreated.
  { intros Hle. by apply summarize_pdf_within_bound. }
  split; [|split; [exact Hcreated|split]].
  - intros Hbig. unfold summarize_pdf.
    rewrite bool_decide_eq_false_2 by (by intros Hno).
    destruct (Z.ltb_spec MAX_FILE_SIZE (Z.of_nat (length content))) as [_|Hok].
    + by eexists.
    + unfold MAX_FILE_SIZE in Hok. lia.
  - intros ->. apply Hcreated. simpl. lia.
  - intros Heq. apply Hcreated. lia.
Qed.

(** An empty upload named [paper.pdf]. *)
Lemma summarize_pdf_size_bound_witness :
  PyStr.lower (snd (OsPath.splitext "paper.pdf")) ∈ ALLOWED_EXTENSIONS
  ∧ ∃ resp,
      summarize_pdf "id-1" "paper.pdf" [] ∅
        = (inr {| response := resp; thread_args := ("id-1", [], "paper.pdf") |},
           <["id-1" := new_record "paper.pdf"]> ∅)
      ∧ resp !! "job_id" = Some (VStr "id-1")
      ∧ new_record "paper.pdf" !! "status" = Some (VStr "processing").
Proof.
  assert (PyStr.lower (snd (OsPath.splitext "paper.pdf")) ∈ ALLOWED_EXTENSIONS) as Hext.
  { apply accepted_extension. reflexivity. }
  split; [exact Hext|].
  destruct (summarize_pdf_size_bound "id-1" "paper.pdf" [] ∅ Hext)
    as (_ & _ & Hempty & _).
  exact (Hempty eq_refl).
Defined.

(** ** Polling, and whole runs on the sample worlds *)

(** A poll answers with the job's record exactly when the table has it. *)
Lemma get_summary_status_known (job_id : string) (rec : gmap string pyval)
    (st : gmap string (gmap string pyval)) :
  get_summary_status job_id st = inr rec ↔ st !! job_id = Some rec.
Proof.
  unfold get_summary_status.
  destruct (st !! job_id); split; intros Heq; by simplify_eq.
Qed.

Lemma get_summary_status_unknown (job_id : string)
    (st : gmap string (gmap string pyval)) :
  st !! job_id = None ->
  get_summary_status job_id st = inl {| status_code := 404; detail := "Job not found" |}.
Proof. unfold get_summary_status. by intros ->. Qed.

(** An accepted submission leaves the record the runner starts from, and
    starts the runner on the same id and filename. *)
Lemma summarize_pdf_creates_job (uuid4 filename : string) (content : list byte)
    (st st' : gmap string (gmap string pyval)) (acc : Accepted) :
  summarize_pdf uuid4 filename content st = (inr acc, st') ->
  thread_args acc = (uuid4, content, filename)
  ∧ st' !! uuid4 = Some (new_record filename).
Proof.
  unfold summarize_pdf. intros Heq.
  case_bool_decide; [done|].
  destruct (MAX_FILE_SIZE <? Z.of_nat (length content)); [done|].
  simplify_eq. simpl. by rewrite lookup_insert_eq.
Qed.

Example run_completed :
  tasks_storage
    (run_final world_ok "job-1" [] "paper.pdf" (submitted "job-1" "paper.pdf"))
    !! "job-1"
  = Some (completed_record "paper.pdf" "Hello" "Ringkasan").
Proof. vm_compute. reflexivity. Qed.

Example run_completed_removes_temp_file :
  files (run_final world_ok "job-1" [] "paper.pdf" (submitted "job-1" "paper.pdf")) = ∅.
Proof. vm_compute. reflexivity. Qed.

Example run_disk_full :
  tasks_storage
    (run_final world_disk_full "job-1" [] "paper.pdf" (submitted "job-1" "paper.pdf"))
    !! "job-1"
  = Some (error_record "[Errno 28] No space left on device").
Proof. vm_compute. reflexivity. Qed.

(** A run for an id the table does not hold ends in the [except] clause
    with the text of the [KeyError]. *)
Example run_unknown_job :
  tasks_storage
    (run_final world_ok "job-9" [] "paper.pdf" (submitted "job-1" "paper.pdf"))
    !! "job-9"
  = Some (error_record "'job-9'").
Proof. vm_compute. reflexivity. Qed.

(** The [error] key is written with whatever [str(e)] is, the empty
    string included. *)
Example run_empty_fault_message :
  job_field "job-1" "error"
    (tasks_storage
       (run_final
          {| named_temporary_file := TempCreateFault (OtherError "");
             pdfplumber_open := fun _ => None;
             ollama_chat := fun _ _ => ChatFault;
             unlink_succeeds := true |}
          "job-1" [] "paper.pdf" (submitted "job-1" "paper.pdf")))
  = Some (VStr "").
Proof. vm_compute. reflexivity. Qed.

(** * Further properties *)

(** ** Strings *)

Lemma append_nil_r (s : string) : s +:+ "" = s.
Proof.
  induction s as [|c s IH]; [done|].
  change (String c (s +:+ "") = String c s). by rewrite IH.
Qed.

Lemma append_cons (c : ascii) (s t : string) :
  String c s +:+ t = String c (s +:+ t).
Proof. reflexivity. Qed.

Lemma append_assoc (s t u : string) : (s +:+ t) +:+ u = s +:+ t +:+ u.
Proof.
  induction s as [|c s IH]; [done|]. rewrite !append_cons. by rewrite IH.
Qed.

Lemma append_length (s t : string) :
  String.length (s +:+ t) = (String.length s + String.length t)%nat.
Proof.
  induction s as [|c s IH]; [done|]. rewrite append_cons. simpl. by rewrite IH.
Qed.

Lemma chars_append (s t : string) : chars (s +:+ t) = (chars s ++ chars t)%list.
Proof.
  induction s as [|c s IH]; [done|]. rewrite append_cons. simpl. by rewrite IH.
Qed.

Lemma lower_length (s : string) : String.length (PyStr.lower s) = String.length s.
Proof. induction s as [|c s IH]; simpl; [done|by rewrite IH]. Qed.

Lemma lower_char_idempotent (c : ascii) :
  PyStr.lower_char (PyStr.lower_char c) = PyStr.lower_char c.
Proof. destruct c as [[] [] [] [] [] [] [] []]; reflexivity. Qed.

Lemma lower_char_dot (c : ascii) :
  PyStr.lower_char c = "."%char ↔ c = "."%char.
Proof.
  split; [|by intros ->].
  destruct c as [[] [] [] [] [] [] [] []]; vm_compute; intros H; by inversion H.
Qed.

Lemma lower_char_slash (c : ascii) :
  PyStr.lower_char c = "/"%char ↔ c = "/"%char.
Proof.
  split; [|by intros ->].
  destruct c as [[] [] [] [] [] [] [] []]; vm_compute; intros H; by inversion H.
Qed.

(** Slices *)

Lemma slice_from_chars (n : nat) (s : string) (c : ascii) :
  c ∈ chars (PyStr.slice_from n s) -> c ∈ chars s.
Proof.
  revert s. induction n as [|n IH]; intros [|a s]; simpl; try done.
  intros Hin. apply elem_of_cons. right. by apply IH.
Qed.

Lemma slice_from_add (n k : nat) (s : string) :
  PyStr.slice_from (n + k) s = PyStr.slice_from k (PyStr.slice_from n s).
Proof.
  revert s. induction n as [|n IH]; intros [|a s]; simpl; try done.
  by destruct k.
Qed.

Lemma slice_to_append (s t : string) :
  PyStr.slice_to (String.length s) (s +:+ t) = s.
Proof.
  induction s as [|c s IH]; [reflexivity|].
  rewrite append_cons. simpl. by rewrite IH.
Qed.

Lemma slice_from_append (s t : string) :
  PyStr.slice_from (String.length s) (s +:+ t) = t.
Proof.
  induction s as [|c s IH]; [reflexivity|].
  rewrite append_cons. simpl. by rewrite IH.
Qed.

(** [rfind] finds the last occurrence. *)
Lemma rfind_from_spec (c : ascii) (s : string) (i last : Z) :
  last < i ->
  (PyStr.rfind_from c s i last = last ∧ c ∉ chars s)
  ∨ (i <= PyStr.rfind_from c s i last < i + PyStr.len s
     ∧ ∃ rest,
         PyStr.slice_from (Z.to_nat (PyStr.rfind_from c s i last - i)) s
           = String c rest
         ∧ c ∉ chars rest).
Proof.
  revert i last. induction s as [|a s IH]; intros i last Hlt; simpl.
  { left. split; [done|]. apply not_elem_of_nil. }
  unfold PyStr.len. simpl String.length. rewrite Nat2Z.inj_succ.
  destruct (IH (i + 1) (if Ascii.eqb a c then i else last)) as [[Heq Hnot]|(Hrange & rest & Hslice & Hnot)].
  { destruct (Ascii.eqb a c); lia. }
  - rewrite Heq. destruct (Ascii.eqb_spec a c) as [->|Hne].
    + right. split; [lia|]. exists s. rewrite Z.sub_diag. done.
    + left. split; [done|]. rewrite not_elem_of_cons. done.
  - right. unfold PyStr.len in Hrange. split; [lia|].
    exists rest. split; [|done].
    set (r := PyStr.rfind_from c s (i + 1) (if Ascii.eqb a c then i else last)) in *.
    replace (Z.to_nat (r - i)) with (S (Z.to_nat (r - (i + 1)))) by lia.
    done.
Qed.

Lemma rfind_spec (c : ascii) (s : string) :
  (PyStr.rfind c s = -1 ∧ c ∉ chars s)
  ∨ (0 <= PyStr.rfind c s < PyStr.len s
     ∧ ∃ rest,
         PyStr.slice_from (Z.to_nat (PyStr.rfind c s)) s = String c rest
         ∧ c ∉ chars rest).
Proof.
  unfold PyStr.rfind.
  destruct (rfind_from_spec c s 0 (-1)) as [?|(Hrange & rest & Hslice & Hnot)];
    [lia|by left|].
  right. split; [lia|]. exists rest. by rewrite Z.sub_0_r in Hslice.
Qed.

Lemma rfind_from_absent (c : ascii) (s : string) (i last : Z) :
  c ∉ chars s -> PyStr.rfind_from c s i last = last.
Proof.
  revert i last. induction s as [|a s IH]; intros i last Hnot; simpl; [done|].
  simpl in Hnot. apply not_elem_of_cons in Hnot as [Hne Hnot].
  rewrite IH by done. destruct (Ascii.eqb_spec a c); congruence.
Qed.

Lemma rfind_from_append (c : ascii) (s t : string) (i last : Z) :
  PyStr.rfind_from c (s +:+ t) i last
  = PyStr.rfind_from c t (i + PyStr.len s) (PyStr.rfind_from c s i last).
Proof.
  revert i last. induction s as [|a s IH]; intros i last.
  - simpl. unfold PyStr.len. simpl. by rewrite Z.add_0_r.
  - rewrite append_cons. simpl. rewrite IH. unfold PyStr.len. simpl String.length.
    f_equal. lia.
Qed.

(** ** [os.path.splitext] *)

(** X1. The two parts [splitext] returns always concatenate back to the
    path it was given. *)
Theorem splitext_roundtrip (p : string) :
  fst (OsPath.splitext p) +:+ snd (OsPath.splitext p) = p.
Proof.
  unfold OsPath.splitext.
  destruct (_ && _); simpl; [apply slice_to_from|apply append_nil_r].
Qed.

(** X2. The extension [splitext] returns is either empty or a dot followed
    by characters among which there is neither a dot nor a slash. *)
Theorem splitext_extension_shape (p : string) :
  snd (OsPath.splitext p) = ""
  ∨ (∃ x, snd (OsPath.splitext p) = String "." x
          ∧ ("."%char ∉ chars x)
          ∧ ("/"%char ∉ chars x)).
Proof.
  unfold OsPath.splitext.
  destruct (_ <? _) eqn:Hlt; simpl; [|by left].
  destruct (OsPath.has_stem _ _ _); simpl; [|by left].
  apply Z.ltb_lt in Hlt. right. unfold OsPath.extsep, OsPath.sep in *.
  destruct (rfind_spec "." p) as [[Hdot _]|(Hdot & x & Hx & Hnodot)].
  { destruct (rfind_spec "/" p) as [[? _]|[? _]]; lia. }
  exists x. split; [exact Hx|]. split; [exact Hnodot|].
  assert ("/"%char ∉ chars (String "." x)) as Hnosep.
  { rewrite <- Hx.
    destruct (rfind_spec "/" p) as [[_ Hnone]|(Hsep & y & Hy & Hnone)].
    - intros Hin. by apply Hnone, (slice_from_chars _ _ _ Hin).
    - replace (Z.to_nat (PyStr.rfind "." p))
        with (Z.to_nat (PyStr.rfind "/" p)
              + S (Z.to_nat (PyStr.rfind "." p - PyStr.rfind "/" p - 1)))%nat
        by lia.
      rewrite slice_from_add, Hy. simpl.
      intros Hin. by apply Hnone, (slice_from_chars _ _ _ Hin). }
  intros Hin. apply Hnosep. simpl. apply elem_of_cons. by right.
Qed.

(** A name without a slash that does not begin with a dot is split at its
    last dot: for such a stem and an extension [.x] with no further dot,
    [splitext] returns exactly the stem and [.x]. *)
Lemma splitext_plain_name (c0 : ascii) (base x : string) :
  c0 ≠ "."%char ->
  "/"%char ∉ chars (String c0 base) ->
  "/"%char ∉ chars x ->
  "."%char ∉ chars x ->
  OsPath.splitext (String c0 base +:+ String "." x)
    = (String c0 base, String "." x).
Proof.
  intros Hc0 Hstem Hxsep Hxdot.
  set (stem := String c0 base).
  assert (PyStr.rfind OsPath.extsep (stem +:+ String "." x) = PyStr.len stem) as Hdot.
  { unfold PyStr.rfind. rewrite rfind_from_append. simpl.
    rewrite rfind_from_absent by done. lia. }
  assert (PyStr.rfind OsPath.sep (stem +:+ String "." x) = -1) as Hsep.
  { unfold PyStr.rfind. apply rfind_from_absent.
    rewrite chars_append. simpl in *. unfold OsPath.sep.
    rewrite elem_of_cons, elem_of_app, elem_of_cons.
    rewrite elem_of_cons in Hstem. intros [?|[?|[?|?]]]; [tauto|tauto|done|done]. }
  unfold OsPath.splitext. rewrite Hdot, Hsep.
  assert ((-1 <? PyStr.len stem) = true) as -> by (apply Z.ltb_lt; unfold PyStr.len; lia).
  assert (OsPath.has_stem (stem +:+ String "." x)
            (Z.to_nat (PyStr.len stem - (-1 + 1))) (-1 + 1) = true) as ->.
  { unfold stem, PyStr.len. simpl String.length.
    replace (Z.to_nat (Z.of_nat (S (String.length base)) - (-1 + 1)))
      with (S (String.length base)) by lia.
    simpl. unfold PyStr.char_at. rewrite append_cons. simpl.
    destruct (Ascii.eqb_spec c0 OsPath.extsep) as [Heq|_]; [done|].
    by destruct base. }
  simpl. unfold PyStr.len. rewrite Nat2Z.id.
  by rewrite slice_to_append, slice_from_append.
Qed.

Example splitext_versioned_name :
  OsPath.splitext ("report.v2" +:+ ".PDF") = ("report.v2", ".PDF").
Proof.
  apply (splitext_plain_name "r" "eport.v2" "PDF"); [done|..];
    apply (bool_decide_unpack _); vm_compute; exact I.
Qed.

(** ** Submission and polling *)

(** The extensions [summarize_pdf] accepts: a dot and three characters
    that lower to [pdf]. *)
Lemma lower_pdf_shape (ext : string) :
  PyStr.lower ext = ".pdf" ->
  ∃ x, ext = String "." x
       ∧ String.length x = 3%nat
       ∧ ("."%char ∉ chars x)
       ∧ ("/"%char ∉ chars x).
Proof.
  destruct ext as [|c1 [|c2 [|c3 [|c4 [|c5 ext]]]]]; simpl; try done.
  intros Heq. injection Heq as H1 H2 H3 H4.
  apply lower_char_dot in H1 as ->.
  exists (String c2 (String c3 (String c4 ""))). split; [done|]. split; [done|].
  split; simpl; rewrite !elem_of_cons, elem_of_nil.
  - intros [<-|[<-|[<-|[]]]]; done.
  - intros [<-|[<-|[<-|[]]]]; done.
Qed.

(** X3. Every filename [summarize_pdf] accepts ends in a dot and three
    characters that are [pdf] up to letter case, and comes with a content
    of at most [MAX_FILE_SIZE] bytes. *)
Theorem accepted_names_end_in_pdf (uuid4 filename : string) (content : list byte)
    (st st' : gmap string (gmap string pyval)) (acc : Accepted) :
  summarize_pdf uuid4 filename content st = (inr acc, st') ->
  (∃ stem x,
     filename = stem +:+ String "." x
     ∧ PyStr.lower x = "pdf"
     ∧ String.length x = 3%nat)
  ∧ Z.of_nat (length content) <= MAX_FILE_SIZE.
Proof.
  unfold summarize_pdf. intros Heq.
  case_bool_decide as Hext; [done|].
  destruct (Z.ltb_spec MAX_FILE_SIZE (Z.of_nat (length content))) as [|Hsize]; [done|].
  split; [|exact Hsize].
  apply accepted_extension in Hext.
  destruct (lower_pdf_shape _ Hext) as (x & Hx & Hlen & _).
  exists (fst (OsPath.splitext filename)), x. split; [|split; [|exact Hlen]].
  - rewrite <- Hx. unfold OsPath.splitext.
    destruct (_ && _); simpl; [by rewrite slice_to_from|by rewrite append_nil_r].
  - rewrite Hx in Hext. simpl in Hext. by injection Hext.
Qed.

Lemma accepted_names_end_in_pdf_witness :
  summarize_pdf "id-7" "Thesis.Pdf" [] ∅
    = (inr {| response :=
                {[ "job_id" := VStr "id-7";
                   "status" := VStr "processing";
                   "message" :=
                     VStr "Your PDF is being processed. Use the job_id to check status." ]};
              thread_args := ("id-7", [], "Thesis.Pdf") |},
       {[ "id-7" := new_record "Thesis.Pdf" ]})
  ∧ (∃ stem x,
       "Thesis.Pdf" = stem +:+ String "." x
       ∧ PyStr.lower x = "pdf"
       ∧ String.length x = 3%nat).
Proof.
  assert (summarize_pdf "id-7" "Thesis.Pdf" [] ∅
    = (inr {| response :=
                {[ "job_id" := VStr "id-7";
                   "status" := VStr "processing";
                   "message" :=
                     VStr "Your PDF is being processed. Use the job_id to check status." ]};
              thread_args := ("id-7", [], "Thesis.Pdf") |},
       {[ "id-7" := new_record "Thesis.Pdf" ]})) as Hrun
    by (vm_compute; reflexivity).
  split; [exact Hrun|].
  exact (proj1 (accepted_names_end_in_pdf _ _ _ _ _ _ Hrun)).
Defined.

(** X4. A filename without a slash that does not begin with a dot and
    ends in an extension that lowers to [.pdf] is accepted whenever the
    content has at most 10*1024*1024 bytes: the job is created under the
    generated id. *)
Theorem plain_pdf_names_accepted (uuid4 : string) (c0 : ascii) (base ext : string)
    (content : list byte) (st : gmap string (gmap string pyval)) :
  c0 ≠ "."%char ->
  "/"%char ∉ chars (String c0 base) ->
  PyStr.lower ext = ".pdf" ->
  Z.of_nat (length content) <= 10 * 1024 * 1024 ->
  ∃ resp,
    summarize_pdf uuid4 (String c0 base +:+ ext) content st
      = (inr {| response := resp;
                thread_args := (uuid4, content, String c0 base +:+ ext) |},
         <[uuid4 := new_record (String c0 base +:+ ext)]> st)
    ∧ resp !! "job_id" = Some (VStr uuid4).
Proof.
  intros Hc0 Hstem Hext Hsize.
  destruct (lower_pdf_shape _ Hext) as (x & -> & _ & Hdot & Hsep).
  destruct (summarize_pdf_within_bound uuid4 (String c0 base +:+ String "." x)
              content st) as (resp & Heq & Hid & _); [|done|by exists resp].
  rewrite splitext_plain_name by done. simpl snd.
  apply accepted_extension. exact Hext.
Qed.

Lemma plain_pdf_names_accepted_witness :
  "T"%char ≠ "."%char
  ∧ ("/"%char ∉ chars "Thesis.final")
  ∧ PyStr.lower ".PDF" = ".pdf"
  ∧ Z.of_nat (length ([] : list byte)) <= 10 * 1024 * 1024
  ∧ ∃ resp,
      summarize_pdf "id-8" ("Thesis.final" +:+ ".PDF") [] ∅
        = (inr {| response := resp;
                  thread_args := ("id-8", [], "Thesis.final" +:+ ".PDF") |},
           <["id-8" := new_record ("Thesis.final" +:+ ".PDF")]> ∅)
      ∧ resp !! "job_id" = Some (VStr "id-8").
Proof.
  assert ("/"%char ∉ chars "Thesis.final") as Hsep
    by (apply (bool_decide_unpack _); vm_compute; exact I).
  split; [done|]. split; [exact Hsep|]. split; [reflexivity|]. split; [simpl; lia|].
  apply (plain_pdf_names_accepted "id-8" "T" "hesis.final" ".PDF" [] ∅);
    [done|exact Hsep|reflexivity|simpl; lia].
Defined.

(** X5. A submission changes what polls answer only for the generated id:
    when it is accepted, a poll for that id shows the new record in status
    [processing] with the filename; when it is refused, nothing changes. *)
Theorem submission_then_poll (uuid4 filename : string) (content : list byte)
    (st : gmap string (gmap string pyval)) :
  (∀ other, other ≠ uuid4 ->
     get_summary_status other (snd (summarize_pdf uuid4 filename content st))
       = get_summary_status other st)
  ∧ match fst (summarize_pdf uuid4 filename content st) with
    | inr _ =>
        get_summary_status uuid4 (snd (summarize_pdf uuid4 filename content st))
          = inr {[ "status" := VStr "processing"; "filename" := VStr filename ]}
    | inl _ => snd (summarize_pdf uuid4 filename content st) = st
    end.
Proof.
  unfold summarize_pdf.
  case_bool_decide; [done|].
  destruct (MAX_FILE_SIZE <? Z.of_nat (length content)); [done|]. simpl. split.
  - intros other Hne. unfold get_summary_status. by rewrite lookup_insert_ne.
  - unfold get_summary_status. by rewrite lookup_insert_eq.
Qed.

(** X6. End to end: after an accepted submission, the run of the thread
    it starts returns normally, and a poll for the returned id then shows
    a record in status [completed] or [error], whatever the world does. *)
Theorem submission_run_poll (w : World) (uuid4 filename : string)
    (content : list byte) (st st' : gmap string (gmap string pyval))
    (acc : Accepted) (m : Machine) :
  summarize_pdf uuid4 filename content st = (inr acc, st') ->
  tasks_storage m = st' ->
  response acc !! "job_id" = Some (VStr uuid4)
  ∧ run_outcome w (thread_args acc).1.1 (thread_args acc).1.2 (thread_args acc).2 m
      = Normal tt
  ∧ ∃ rec,
      get_summary_status uuid4
        (tasks_storage
           (run_final w (thread_args acc).1.1 (thread_args acc).1.2
              (thread_args acc).2 m))
        = inr rec
      ∧ (rec !! "status" = Some (VStr "completed")
         ∨ rec !! "status" = Some (VStr "error")).
Proof.
  intros Hsub Hm.
  assert (thread_args acc = (uuid4, content, filename)
          ∧ response acc !! "job_id" = Some (VStr uuid4)) as [-> Hid].
  { unfold summarize_pdf in Hsub. case_bool_decide; [done|].
    destruct (MAX_FILE_SIZE <? Z.of_nat (length content)); [done|].
    by simplify_eq. }
  split; [exact Hid|]. simpl.
  destruct (process_pdf_thread_shape w uuid4 content filename m)
    as (m' & evs & Hrun & Hshape).
  unfold run_outcome, run_final. rewrite Hrun. simpl. split; [done|].
  unfold get_summary_status.
  destruct Hshape; subst_let; rewrite lookup_insert_eq; eexists; (split; [done|]);
    unfold error_record, completed_record; rewrite lookup_insert_eq; auto.
Qed.

Lemma submission_run_poll_witness :
  summarize_pdf "id-9" "paper.pdf" [] ∅
    = (inr {| response :=
                {[ "job_id" := VStr "id-9";
                   "status" := VStr "processing";
                   "message" :=
                     VStr "Your PDF is being processed. Use the job_id to check status." ]};
              thread_args := ("id-9", [], "paper.pdf") |},
       {[ "id-9" := new_record "paper.pdf" ]})
  ∧ ∃ rec,
      get_summary_status "id-9"
        (tasks_storage
           (run_final world_offline "id-9" [] "paper.pdf" (submitted "id-9" "paper.pdf")))
        = inr rec
      ∧ (rec !! "status" = Some (VStr "completed")
         ∨ rec !! "status" = Some (VStr "error")).
Proof.
  assert (summarize_pdf "id-9" "paper.pdf" [] ∅
    = (inr {| response :=
                {[ "job_id" := VStr "id-9";
                   "status" := VStr "processing";
                   "message" :=
                     VStr "Your PDF is being processed. Use the job_id to check status." ]};
              thread_args := ("id-9", [], "paper.pdf") |},
       {[ "id-9" := new_record "paper.pdf" ]})) as Hsub
    by (vm_compute; reflexivity).
  split; [exact Hsub|].
  exact (proj2 (proj2 (submission_run_poll world_offline "id-9" "paper.pdf" [] ∅ _ _
                         (submitted "id-9" "paper.pdf") Hsub eq_refl))).
Defined.

(** ** Text extraction *)

Lemma lstrip_head (s : string) (c : ascii) (t : string) :
  PyStr.lstrip s = String c t -> PyStr.is_space c = false.
Proof.
  induction s as [|a s IH]; simpl; [done|].
  destruct (PyStr.is_space a) eqn:Ha; [exact IH|].
  intros Heq. by simplify_eq.
Qed.

Lemma lstrip_all_space (s : string) : all_space s -> PyStr.lstrip s = "".
Proof.
  unfold all_space. induction s as [|a s IH]; simpl; [done|].
  intros Hall. apply Forall_cons in Hall as [-> Hall]. by apply IH.
Qed.

Lemma lstrip_empty (s : string) : PyStr.lstrip s = "" -> all_space s.
Proof.
  unfold all_space. induction s as [|a s IH]; simpl; [constructor|].
  destruct (PyStr.is_space a) eqn:Ha; [|done].
  intros Heq. constructor; [done|by apply IH].
Qed.

Lemma rstrip_head (s : string) (c : ascii) (t : string) :
  PyStr.rstrip s = String c t -> ∃ s', s = String c s'.
Proof.
  destruct s as [|a s]; simpl; [done|].
  destruct (PyStr.rstrip s); [destruct (PyStr.is_space a)|];
    intros Heq; simplify_eq; eauto.
Qed.

Lemma rstrip_empty (s : string) : PyStr.rstrip s = "" -> all_space s.
Proof.
  unfold all_space. induction s as [|a s IH]; simpl; [constructor|].
  destruct (PyStr.rstrip s); [|done].
  destruct (PyStr.is_space a) eqn:Ha; [|done].
  intros _. constructor; [done|by apply IH].
Qed.

Lemma rstrip_last (s t : string) (c : ascii) :
  PyStr.rstrip s = t +:+ String c "" -> PyStr.is_space c = false.
Proof.
  revert t. induction s as [|a s IH]; intros t; simpl.
  { by destruct t. }
  destruct (PyStr.rstrip s) as [|b r] eqn:Hr.
  - destruct (PyStr.is_space a) eqn:Ha; [by destruct t|].
    destruct t as [|a' [|? ?]]; intros Heq; cbv [String.append] in Heq;
      by simplify_eq.
  - destruct t as [|a' t]; [done|].
    rewrite append_cons. intros Heq. injection Heq as _ Heq. by apply (IH t).
Qed.

Lemma strip_all_space (s : string) : all_space s ↔ PyStr.strip s = "".
Proof.
  unfold PyStr.strip. split.
  - intros Hall. by rewrite lstrip_all_space.
  - intros Heq. apply lstrip_empty.
    destruct (PyStr.lstrip s) as [|c t] eqn:Hl; [done|].
    apply rstrip_empty in Heq. apply Forall_cons in Heq as [Hc _].
    apply lstrip_head in Hl. congruence.
Qed.

Lemma strip_no_outer_space (s : string) :
  (∀ c t, PyStr.strip s = String c t -> PyStr.is_space c = false)
  ∧ (∀ t c, PyStr.strip s = t +:+ String c "" -> PyStr.is_space c = false).
Proof.
  unfold PyStr.strip. split.
  - intros c t Heq. apply rstrip_head in Heq as [s' Hs']. by eapply lstrip_head.
  - intros t c. apply rstrip_last.
Qed.

(** X7. [extract_text_from_pdf] never raises and leaves the machine as it
    was; it opens at most the one path it is given; and a text it returns
    neither begins nor ends with a whitespace character. *)
Theorem extract_text_from_pdf_stripped (w : World) (pdf_path : option string)
    (m : Machine) :
  ∃ result,
    extract_text_from_pdf w pdf_path m
      = (Normal result, m, from_option (fun p => [EvOpenPdf p]) [] pdf_path)
    ∧ ∀ text, result = Some text ->
        (∀ c t, text = String c t -> PyStr.is_space c = false)
        ∧ (∀ t c, text = t +:+ String c "" -> PyStr.is_space c = false).
Proof.
  unfold extract_text_from_pdf.
  destruct pdf_path as [path|]; simpl; [|by eexists].
  eexists. split; [reflexivity|].
  intros text Htext.
  destruct (files m !! path) as [bytes|]; [|done].
  destruct (pdfplumber_open w bytes) as [pages|]; [|done].
  destruct (extract_pages pages "") as [raw|]; [|done].
  simpl in Htext. injection Htext as <-. apply strip_no_outer_space.
Qed.

Lemma extract_pages_no_fault (pages : list page_outcome) (acc : string) :
  PageFault ∉ pages ->
  extract_pages pages acc = Some (acc +:+ joined_text pages).
Proof.
  revert acc. induction pages as [|[[[|c t]|]|] pages IH]; intros acc Hno; simpl.
  - by rewrite append_nil_r.
  - apply IH. intros Hin. apply Hno. by right.
  - rewrite IH; [by rewrite !append_assoc|].
    intros Hin. apply Hno. by right.
  - apply IH. intros Hin. apply Hno. by right.
  - exfalso. apply Hno. by left.
Qed.

(** X8. The page loop fails exactly when some page raises; otherwise it
    appends to the accumulator, in page order, each non-empty page text
    followed by a newline, and pages without text add nothing. *)
Theorem extract_pages_joins (pages : list page_outcome) (acc : string) :
  (extract_pages pages acc = None ↔ PageFault ∈ pages)
  ∧ (PageFault ∉ pages ->
     extract_pages pages acc = Some (acc +:+ joined_text pages)).
Proof.
  split; [|apply extract_pages_no_fault].
  revert acc. induction pages as [|[[[|c t]|]|] pages IH]; intros acc; simpl.
  - split; [done|by intros ?%elem_of_nil].
  - rewrite IH, elem_of_cons. split; [by right|by intros [?|?]].
  - rewrite IH, elem_of_cons. split; [by right|by intros [?|?]].
  - rewrite IH, elem_of_cons. split; [by right|by intros [?|?]].
  - split; [intros _; by left|done].
Qed.

(** The pages of a document whose page texts are all whitespace join to
    whitespace. *)
Lemma joined_text_all_space (pages : list page_outcome) :
  Forall (fun page => ∃ t, page = PageText t ∧ all_space (default "" t)) pages ->
  (PageFault ∉ pages) ∧ all_space (joined_text pages).
Proof.
  induction 1 as [|page pages (t & -> & Ht) _ [IHno IHall]]; simpl.
  { split; [apply not_elem_of_nil|constructor]. }
  split; [rewrite elem_of_cons; by intros [?|?]|].
  destruct t as [[|c t]|]; try done.
  unfold all_space in *. rewrite !chars_append. simpl in *.
  apply Forall_cons in Ht as [Hc Ht]. constructor; [done|].
  apply Forall_app. split; [done|]. by constructor.
Qed.

(** ** The runner: temporary files *)

Lemma keeps_store_record (job_id : string) (rec : gmap string pyval) :
  keeps_temp_files (store_record job_id rec).
Proof. by intros m. Qed.

Lemma keeps_store_field (job_id field : string) (v : pyval) :
  keeps_temp_files (store_field job_id field v).
Proof.
  intros m. unfold store_field. destruct (tasks_storage m !! job_id); by simpl.
Qed.

Lemma keeps_get_machine : keeps_temp_files get_machine.
Proof. by intros m. Qed.

Lemma keeps_extract (w : World) (pdf_path : option string) :
  keeps_temp_files (extract_text_from_pdf w pdf_path).
Proof. intros m. unfold extract_text_from_pdf. destruct pdf_path; by simpl. Qed.

Lemma keeps_summarize (w : World) (text : string) :
  keeps_temp_files (summarize_text w text).
Proof. by intros m. Qed.

Lemma keeps_bind {A B} (c : M A) (k : A -> M B) :
  keeps_temp_files c -> (∀ a, keeps_temp_files (k a)) -> keeps_temp_files (bind c k).
Proof.
  intros Hc Hk m. unfold bind. specialize (Hc m).
  destruct (c m) as [[[a|e] m1] ev1]; simpl in *; [|done].
  specialize (Hk a m1). destruct (k a m1) as [[r m2] ev2]. simpl in *.
  destruct Hc, Hk. split; congruence.
Qed.

Ltac keeps_files :=
  repeat first
    [ apply keeps_store_record | apply keeps_store_field | apply keeps_get_machine
    | apply keeps_extract | apply keeps_summarize
    | apply keeps_bind; [|intros ?]
    | match goal with |- keeps_temp_files (if ?b then _ else _) => destruct b end ].

Lemma try_except_bind_files (c : M unit) (k : unit -> M unit)
    (handler : pyexn -> M unit) (m : Machine) :
  (∀ a, keeps_temp_files (k a)) ->
  (∀ e, keeps_temp_files (handler e)) ->
  files (snd (fst (try_except (bind c k) handler m))) = files (snd (fst (c m)))
  ∧ temp_file_path (snd (fst (try_except (bind c k) handler m)))
    = temp_file_path (snd (fst (c m))).
Proof.
  intros Hk Hh. unfold try_except, bind.
  destruct (c m) as [[[a|e] m1] ev1]; simpl.
  - specialize (Hk a m1). destruct (k a m1) as [[[b|e] m2] ev2]; simpl in *; [done|].
    specialize (Hh e m2). destruct (handler e m2) as [[r m3] ev3]; simpl in *.
    destruct Hk, Hh. split; congruence.
  - specialize (Hh e m1). by destruct (handler e m1) as [[r m3] ev3].
Qed.

(** After the temporary file block, nothing up to the [finally] clause
    touches the files or [temp_file_path]. *)
Lemma guarded_pipeline_files (w : World) (job_id : string) (content : list byte)
    (filename : string) (m : Machine) :
  let after_write := snd (fst (write_temp_file w content m)) in
  let after_try :=
    snd (fst (try_except (pipeline w job_id content filename)
                (on_exception job_id) m)) in
  files after_try = files after_write
  ∧ temp_file_path after_try = temp_file_path after_write.
Proof.
  unfold pipeline. apply try_except_bind_files.
  - intros []. keeps_files.
  - intros e. apply keeps_store_record.
Qed.

Lemma run_final_files (w : World) (job_id : string) (content : list byte)
    (filename : string) (m : Machine) :
  files (run_final w job_id content filename m)
  = match named_temporary_file w with
    | TempCreateFault _ => files m
    | TempWriteFault path _ => <[path := []]> (files m)
    | TempOk path =>
        if PyStr.truthy (Some path) && unlink_succeeds w
        then delete path (files m)
        else <[path := content]> (files m)
    end.
Proof.
  unfold run_final, process_pdf_thread, try_finally.
  pose proof (guarded_pipeline_files w job_id content filename
                (set_temp_file_path None m)) as [Hfiles Hpath].
  destruct (try_except _ _ _) as [[r m1] ev1]. simpl in Hfiles, Hpath.
  unfold cleanup. rewrite Hpath. unfold write_temp_file in *.
  destruct (named_temporary_file w) as [e|path e|path]; simpl in *; try done.
  rewrite Hfiles, lookup_insert_eq.
  rewrite bool_decide_eq_true_2 by eauto. rewrite andb_true_r.
  destruct path as [|c path]; simpl; [done|].
  destruct (unlink_succeeds w); simpl; [by rewrite delete_insert_eq|done].
Qed.

(** X9. When the temporary file was written under a non-empty name, the
    run ends, on every exit, with that file removed and every other file
    untouched, provided [os.unlink] succeeds; when [os.unlink] fails the
    failure is swallowed and the file stays, holding the upload. *)
Theorem temp_file_released (w : World) (job_id : string) (content : list byte)
    (filename : string) (m : Machine) (path : string) :
  named_temporary_file w = TempOk path ->
  path ≠ "" ->
  files (run_final w job_id content filename m)
  = if unlink_succeeds w
    then delete path (files m)
    else <[path := content]> (files m).
Proof.
  intros Htemp Hpath. rewrite run_final_files, Htemp.
  destruct path; [done|]. reflexivity.
Qed.

Lemma temp_file_released_witness :
  named_temporary_file world_offline = TempOk "/tmp/tmpa1.pdf"
  ∧ "/tmp/tmpa1.pdf" ≠ ""
  ∧ files (run_final world_offline "job-1" [] "paper.pdf"
             {| tasks_storage := {[ "job-1" := new_record "paper.pdf" ]};
                files := {[ "/tmp/other.pdf" := [] ]};
                temp_file_path := None |})
    = delete "/tmp/tmpa1.pdf" {[ "/tmp/other.pdf" := [] ]}.
Proof.
  split; [reflexivity|]. split; [done|].
  exact (temp_file_released world_offline "job-1" [] "paper.pdf"
           {| tasks_storage := {[ "job-1" := new_record "paper.pdf" ]};
              files := {[ "/tmp/other.pdf" := [] ]};
              temp_file_path := None |}
           "/tmp/tmpa1.pdf" eq_refl ltac:(done)).
Defined.

(** X10. When writing the upload to the temporary file fails, the file
    that was created stays on disk after the run: [temp_file_path] was
    never assigned, so the [finally] clause does not remove it. The job is
    left in [error] with the text of the exception. *)
Theorem temp_file_left_on_write_fault (w : World) (job_id : string)
    (content : list byte) (filename : string) (m : Machine)
    (path : string) (e : pyexn) :
  named_temporary_file w = TempWriteFault path e ->
  is_Some (files (run_final w job_id content filename m) !! path)
  ∧ (∀ other, other ≠ path ->
       files (run_final w job_id content filename m) !! other = files m !! other)
  ∧ tasks_storage (run_final w job_id content filename m) !! job_id
      = Some (error_record (str_exn e)).
Proof.
  intros Htemp. rewrite run_final_files, Htemp. split; [|split].
  - rewrite lookup_insert_eq. eauto.
  - intros other Hne. by rewrite lookup_insert_ne.
  - destruct (process_pdf_thread_shape w job_id content filename m)
      as (m' & evs & Hrun & Hshape).
    unfold run_final. rewrite Hrun. simpl.
    destruct Hshape; subst_let; rewrite lookup_insert_eq;
      match goal with
      | H : temp_fault _ = Some _ |- _ =>
          rewrite Htemp in H; simpl in H; by simplify_eq
      | H : named_temporary_file _ = TempOk _ |- _ => by rewrite Htemp in H
      end.
Qed.

Lemma temp_file_left_on_write_fault_witness :
  named_temporary_file world_write_fault
    = TempWriteFault "/tmp/tmpb2.pdf" (OtherError "[Errno 28] No space left on device")
  ∧ is_Some
      (files (run_final world_write_fault "job-1" [] "paper.pdf"
                (submitted "job-1" "paper.pdf"))
         !! "/tmp/tmpb2.pdf").
Proof.
  split; [reflexivity|].
  exact (proj1 (temp_file_left_on_write_fault world_write_fault "job-1" []
                  "paper.pdf" (submitted "job-1" "paper.pdf") _ _ eq_refl)).
Defined.

(** ** The runner: outcomes *)

(** X11. A PDF whose pages hold nothing but whitespace is treated like a
    PDF without text: the job of a known id ends in [error] with the
    "No text found" message. *)
Theorem whitespace_only_pdf_has_no_text (w : World) (job_id : string)
    (content : list byte) (filename : string) (m : Machine)
    (path : string) (pages : list page_outcome) :
  named_temporary_file w = TempOk path ->
  is_Some (tasks_storage m !! job_id) ->
  pdfplumber_open w content = Some pages ->
  Forall (fun page => ∃ t, page = PageText t ∧ all_space (default "" t)) pages ->
  extracted w content = Some ""
  ∧ tasks_storage (run_final w job_id content filename m) !! job_id
      = Some (error_record NO_TEXT_MESSAGE).
Proof.
  intros Htemp [rec Hjob] Hopen Hpages.
  assert (extracted w content = Some "") as Htext.
  { unfold extracted. rewrite Hopen.
    destruct (joined_text_all_space pages Hpages) as [Hno Hall].
    rewrite (extract_pages_no_fault pages "" Hno).
    simpl. f_equal. by apply strip_all_space. }
  split; [exact Htext|].
  destruct (process_pdf_thread_shape w job_id content filename m)
    as (m' & evs & Hrun & Hshape).
  unfold run_final. rewrite Hrun. simpl.
  destruct Hshape; subst_let; rewrite lookup_insert_eq;
    try match goal with
        | H : temp_fault _ = Some _ |- _ => by rewrite Htemp in H
        | H : tasks_storage _ !! _ = None |- _ => by rewrite Hjob in H
        | H : extracted _ _ = Some (String _ _) |- _ => by rewrite Htext in H
        end.
  done.
Qed.

Lemma whitespace_only_pdf_has_no_text_witness :
  named_temporary_file world_blank_pages = TempOk "/tmp/tmpa1.pdf"
  ∧ is_Some (tasks_storage (submitted "job-1" "blank.pdf") !! "job-1")
  ∧ extracted world_blank_pages [] = Some ""
  ∧ tasks_storage
      (run_final world_blank_pages "job-1" [] "blank.pdf" (submitted "job-1" "blank.pdf"))
      !! "job-1"
    = Some (error_record NO_TEXT_MESSAGE).
Proof.
  assert (is_Some (tasks_storage (submitted "job-1" "blank.pdf") !! "job-1")) as Hjob.
  { exists (new_record "blank.pdf"). apply lookup_singleton_eq. }
  split; [reflexivity|]. split; [exact Hjob|].
  apply (whitespace_only_pdf_has_no_text world_blank_pages "job-1" [] "blank.pdf"
           (submitted "job-1" "blank.pdf") "/tmp/tmpa1.pdf"
           [PageText (Some "  "); PageText (Some (String "010" " "))]);
    [reflexivity|exact Hjob|reflexivity|].
  repeat constructor; eexists; (split; [reflexivity|]); repeat constructor.
Defined.

Ltac clash :=
  repeat (match goal with
    | H : named_temporary_file ?w = TempOk _, H' : temp_fault (named_temporary_file ?w) = _ |- _ =>
        rewrite H in H'; simpl in H'
    | H : temp_fault ?o = _, H' : temp_fault ?o = _ |- _ =>
        rewrite H in H'
    | H : named_temporary_file ?w = _, H' : named_temporary_file ?w = _ |- _ =>
        rewrite H in H'
    | H : tasks_storage ?m !! ?j = _, H' : tasks_storage ?m !! ?j = _ |- _ =>
        rewrite H in H'
    | H : extracted ?w ?c = Some _, H' : PyStr.truthy (extracted ?w ?c) = false |- _ =>
        rewrite H in H'; simpl in H'
    | H : extracted ?w ?c = _, H' : extracted ?w ?c = _ |- _ =>
        rewrite H in H'
    | H : summarized ?w ?t = Some _, H' : PyStr.truthy (summarized ?w ?t) = false |- _ =>
        rewrite H in H'; simpl in H'
    | H : summarized ?w ?t = _, H' : summarized ?w ?t = _ |- _ =>
        rewrite H in H'
    end; simplify_eq).

(** X12. A run leaves the job in status [completed] exactly when the
    temporary file was written, the job id is known, extraction gave a
    non-empty text and the model gave a non-empty summary. The record then
    holds the runner's filename, the summary, and the length of the
    extracted text, which is at least 1. *)
Theorem run_completes_iff (w : World) (job_id : string) (content : list byte)
    (filename : string) (m : Machine) :
  (job_status job_id (tasks_storage (run_final w job_id content filename m))
     = Some (VStr "completed")
   ↔ ∃ path text summary,
       named_temporary_file w = TempOk path
       ∧ is_Some (tasks_storage m !! job_id)
       ∧ extracted w content = Some text ∧ text ≠ ""
       ∧ summarized w text = Some summary ∧ summary ≠ "")
  ∧ (∀ text summary,
       extracted w content = Some text ->
       summarized w text = Some summary ->
       job_status job_id (tasks_storage (run_final w job_id content filename m))
         = Some (VStr "completed") ->
       tasks_storage (run_final w job_id content filename m) !! job_id
         = Some {[ "status" := VStr "completed";
                   "filename" := VStr filename;
                   "text_length" := VInt (PyStr.len text);
                   "summary" := VStr summary ]}
       ∧ 1 <= PyStr.len text).
Proof.
  destruct (process_pdf_thread_shape w job_id content filename m)
    as (m' & evs & Hrun & Hshape).
  unfold run_final. rewrite Hrun. simpl. split; [split|].
  - intros Hdone.
    destruct Hshape; subst_let; revert Hdone; read_fields; try done.
    intros _. do 3 eexists. repeat split; eauto.
  - intros (path & text & summary & Htemp & [rec Hjob] & Htext & Hne & Hsum & Hne').
    destruct text as [|c text]; [done|]. destruct summary as [|d summary]; [done|].
    destruct Hshape; subst_let; clash; by read_fields.
  - intros text summary Htext Hsum Hdone.
    destruct Hshape; subst_let; revert Hdone; read_fields; try done.
    intros _. clash. split; [done|]. unfold PyStr.len. simpl. lia.
Qed.

(** X13. A run writes to its own job only: for every other job id, each
    job table a poller can read during the run, and the one left behind,
    hold what the table held when the run started. *)
Theorem run_touches_only_its_job (w : World) (job_id : string)
    (content : list byte) (filename : string) (m : Machine) (other : string) :
  other ≠ job_id ->
  Forall (fun st => st !! other = tasks_storage m !! other)
    (history w job_id content filename m)
  ∧ tasks_storage (run_final w job_id content filename m) !! other
    = tasks_storage m !! other.
Proof.
  intros Hne.
  destruct (process_pdf_thread_shape w job_id content filename m)
    as (m' & evs & Hrun & Hshape).
  unfold history, run_events, run_final. rewrite Hrun. simpl. split.
  - constructor; [done|]. by eapply run_shape_frame.
  - destruct Hshape; subst_let; by rewrite !lookup_insert_ne.
Qed.

Lemma run_touches_only_its_job_witness :
  "job-2" ≠ "job-1"
  ∧ tasks_storage
      (run_final world_ok "job-1" [] "paper.pdf"
         {| tasks_storage :=
              {[ "job-1" := new_record "paper.pdf"; "job-2" := new_record "other.pdf" ]};
            files := ∅;
            temp_file_path := None |})
      !! "job-2"
    = Some (new_record "other.pdf").
Proof.
  split; [done|].
  exact (proj2 (run_touches_only_its_job world_ok "job-1" [] "paper.pdf"
                  {| tasks_storage :=
                       {[ "job-1" := new_record "paper.pdf";
                          "job-2" := new_record "other.pdf" ]};
                     files := ∅;
                     temp_file_path := None |}
                  "job-2" ltac:(done))).
Defined.

(** Two runs in the same world on job tables that agree on whether the
    job is known end with the same record for it. *)
Lemma run_shape_record (w : World) (job_id : string) (content : list byte)
    (filename : string) (st1 st2 st1' st2' : gmap string (gmap string pyval))
    (evs1 evs2 : list event) :
  run_shape w job_id content filename st1 evs1 st1' ->
  run_shape w job_id content filename st2 evs2 st2' ->
  (is_Some (st1 !! job_id) ↔ is_Some (st2 !! job_id)) ->
  st1' !! job_id = st2' !! job_id.
Proof.
  intros H1 H2 Hknown.
  assert (∀ rec, st1 !! job_id = Some rec -> st2 !! job_id = None -> False) as Hl.
  { intros rec Hs Hn. destruct (proj1 Hknown) as [? ?]; [eauto|congruence]. }
  assert (∀ rec, st2 !! job_id = Some rec -> st1 !! job_id = None -> False) as Hr.
  { intros rec Hs Hn. destruct (proj2 Hknown) as [? ?]; [eauto|congruence]. }
  destruct H1; destruct H2; subst_let; rewrite !lookup_insert_eq;
    clash; try done; try (exfalso; eauto; fail).
Qed.

(** X14. The record a run leaves for its job is decided by the world
    alone, once it is settled whether the job id is known: it depends
    neither on what the job's record held before, nor on the other jobs,
    nor on the files present. *)
Theorem run_record_determined (w : World) (job_id : string) (content : list byte)
    (filename : string) (m1 m2 : Machine) :
  (is_Some (tasks_storage m1 !! job_id) ↔ is_Some (tasks_storage m2 !! job_id)) ->
  tasks_storage (run_final w job_id content filename m1) !! job_id
  = tasks_storage (run_final w job_id content filename m2) !! job_id.
Proof.
  intros Hknown.
  destruct (process_pdf_thread_shape w job_id content filename m1)
    as (m1' & evs1 & Hrun1 & Hshape1).
  destruct (process_pdf_thread_shape w job_id content filename m2)
    as (m2' & evs2 & Hrun2 & Hshape2).
  unfold run_final. rewrite Hrun1, Hrun2. simpl.
  by eapply run_shape_record.
Qed.

Lemma run_record_determined_witness :
  (is_Some (tasks_storage (submitted "job-1" "paper.pdf") !! "job-1")
   ↔ is_Some
       (tasks_storage
          (run_final world_ok "job-1" [] "paper.pdf" (submitted "job-1" "paper.pdf"))
          !! "job-1"))
  ∧ tasks_storage
      (run_final world_ok "job-1" [] "paper.pdf" (submitted "job-1" "paper.pdf"))
      !! "job-1"
    = tasks_storage
        (run_final world_ok "job-1" [] "paper.pdf"
           (run_final world_ok "job-1" [] "paper.pdf" (submitted "job-1" "paper.pdf")))
        !! "job-1".
Proof.
  assert (is_Some (tasks_storage (submitted "job-1" "paper.pdf") !! "job-1")
          ↔ is_Some
              (tasks_storage
                 (run_final world_ok "job-1" [] "paper.pdf"
                    (submitted "job-1" "paper.pdf"))
                 !! "job-1")) as Hknown.
  { split; intros _; eexists; vm_compute; reflexivity. }
  split; [exact Hknown|].
  exact (run_record_determined world_ok "job-1" [] "paper.pdf" _ _ Hknown).
Defined.

(** X15. Runs of two different jobs do not disturb each other: after the
    run of [a] followed by the run of [b], each job has the record its own
    run leaves when run alone from the same start. *)
Theorem runs_of_different_jobs_commute (wa wb : World) (a b : string)
    (ca cb : list byte) (fa fb : string) (m : Machine) :
  a ≠ b ->
  tasks_storage (run_final wb b cb fb (run_final wa a ca fa m)) !! a
    = tasks_storage (run_final wa a ca fa m) !! a
  ∧ tasks_storage (run_final wb b cb fb (run_final wa a ca fa m)) !! b
    = tasks_storage (run_final wb b cb fb m) !! b.
Proof.
  intros Hne.
  destruct (process_pdf_thread_shape wa a ca fa m) as (ma & ea & Hra & Hsa).
  destruct (process_pdf_thread_shape wb b cb fb ma) as (mab & eab & Hrab & Hsab).
  destruct (process_pdf_thread_shape wb b cb fb m) as (mb & eb & Hrb & Hsb).
  assert (tasks_storage ma !! b = tasks_storage m !! b) as Hframe.
  { clear -Hsa Hne. destruct Hsa; subst_let; by rewrite !lookup_insert_ne. }
  unfold run_final. rewrite Hra. simpl. rewrite Hrab, Hrb. simpl. split.
  - clear -Hsab Hne. destruct Hsab; subst_let; by rewrite !lookup_insert_ne.
  - eapply run_shape_record; [exact Hsab|exact Hsb|]. by rewrite Hframe.
Qed.

Lemma runs_of_different_jobs_commute_witness :
  "job-1" ≠ "job-2"
  ∧ tasks_storage
      (run_final world_scanned "job-2" [] "scan.pdf"
         (run_final world_ok "job-1" [] "paper.pdf" (submitted "job-1" "paper.pdf")))
      !! "job-1"
    = tasks_storage
        (run_final world_ok "job-1" [] "paper.pdf" (submitted "job-1" "paper.pdf"))
        !! "job-1".
Proof.
  split; [done|].
  exact (proj1 (runs_of_different_jobs_commute world_ok world_scanned "job-1" "job-2"
                  [] [] "paper.pdf" "scan.pdf" (submitted "job-1" "paper.pdf")
                  ltac:(done))).
Defined.

(** X16. A run sends a chat request exactly when the temporary file was
    written, the job id is known and extraction gave a non-empty text; it
    then sends one request, to the model [mistral], with the prompt built
    from that text. *)
Theorem run_chat_requests (w : World) (job_id : string) (content : list byte)
    (filename : string) (m : Machine) :
  chat_calls (run_events w job_id content filename m)
  = match named_temporary_file w, tasks_storage m !! job_id, extracted w content with
    | TempOk _, Some _, Some (String c t) => [("mistral", make_prompt (String c t))]
    | _, _, _ => []
    end.
Proof.
  destruct (process_pdf_thread_shape w job_id content filename m)
    as (m' & evs & Hrun & Hshape).
  unfold run_events. rewrite Hrun. simpl.
  destruct Hshape; subst_let; simpl;
    repeat match goal with
      | H : named_temporary_file _ = _ |- _ => rewrite H; clear H
      | H : tasks_storage _ !! _ = _ |- _ => rewrite H; clear H
      | H : extracted _ _ = Some _ |- _ => rewrite H; clear H
      end; try done.
  - destruct (named_temporary_file w); by simplify_eq.
  - by destruct (extracted w content) as [[|? ?]|].
Qed.



(** X18. Whatever the length of the text, the prompt sent to the model
    has the 186 characters of the fixed wording plus at most 4000
    characters of text. *)
Theorem prompt_length_bounded (text : string) :
  PyStr.len (make_prompt text) = 186 + Z.min (PyStr.len text) 4000
  ∧ PyStr.len (make_prompt text) <= 4186.
Proof.
  assert (PyStr.len (make_prompt text) = 186 + Z.min (PyStr.len text) 4000) as Hlen.
  { unfold make_prompt, PyStr.len.
    rewrite !append_length, slice_to_length, !Nat2Z.inj_add, Nat2Z.inj_min.
    assert (Z.of_nat 4000 = 4000) as -> by (vm_compute; reflexivity).
    assert (Z.of_nat (String.length prompt_head) = 139) as -> by (vm_compute; reflexivity).
    assert (Z.of_nat (String.length prompt_tail) = 47) as -> by (vm_compute; reflexivity).
    lia. }
  split; [exact Hlen|]. rewrite Hlen. lia.
Qed.
